(** * Verification model of the WhatsApp auto-reply backend

    Shallow embedding of the reply pipeline of the repository:
    - [AIReply] (ai-reply, src/unnamed/part_000, second class):
      rate limiter, conversation history, language detection, reply
      generation with fallbacks;
    - [GeminiAI] (src/unnamed/part_001): chat history, rate limiting,
      language detection and fallback replies;
    - [SessionManager] (src/unnamed/part_000, first class): inbound
      message pipeline, typing delay, stop and disconnect handling;
    - [WhatsAppHandler] (src/whatsapp-handler.js): session registry
      and phone-number formatting.

    JavaScript strings are lists of UTF-16 code units ([list Z]).
    JavaScript [Map] and [Set] objects are stdpp [gmap] and [gset]. *)

From Stdlib Require Import ZArith List Bool Lia QArith Qminmax Lqa String Ascii.
From stdpp Require Import base gmap sets list.

Local Open Scope Z_scope.

(* ------------------------------------------------------------------ *)
(** ** JavaScript strings *)

(** A JavaScript string: its sequence of UTF-16 code units. *)
Abbreviation jsstr := (list Z).

(** An ASCII literal as a JavaScript string. *)
Fixpoint lit (s : string) : jsstr :=
  match s with
  | EmptyString => []
  | String c r => Z.of_nat (nat_of_ascii c) :: lit r
  end.

(** The surrogate pair of U+1F605 (the emoji after most fallbacks). *)
Definition emoji_sweat : jsstr := [55357; 56837].

(** [s.startsWith(p)] *)
Fixpoint startsWith (s p : jsstr) : bool :=
  match p, s with
  | [], _ => true
  | c :: p', d :: s' => (c =? d) && startsWith s' p'
  | _ :: _, [] => false
  end.

(** [s.includes(p)]: [p] occurs at some position of [s]. *)
Fixpoint includes (s p : jsstr) : bool :=
  startsWith s p ||
  match s with
  | [] => false
  | _ :: s' => includes s' p
  end.

(** The ECMAScript WhiteSpace and LineTerminator code units: the set
    matched by [\s] and removed by [String.prototype.trim]. *)
Definition is_js_space (c : Z) : bool :=
  (c =? 9) || (c =? 10) || (c =? 11) || (c =? 12) || (c =? 13) ||
  (c =? 32) || (c =? 160) || (c =? 5760) ||
  ((8192 <=? c) && (c <=? 8202)) ||
  (c =? 8232) || (c =? 8233) || (c =? 8239) || (c =? 8287) ||
  (c =? 12288) || (c =? 65279).

(** The LineTerminator code units: those the regex [.] does not match. *)
Definition is_line_terminator (c : Z) : bool :=
  (c =? 10) || (c =? 13) || (c =? 8232) || (c =? 8233).

Fixpoint trim_start (s : jsstr) : jsstr :=
  match s with
  | [] => []
  | c :: r => if is_js_space c then trim_start r else s
  end.

(** [s.trim()] *)
Definition trim (s : jsstr) : jsstr :=
  rev (trim_start (rev (trim_start s))).

(** A JavaScript value as the operands of [||] in the rate limiter see
    it: a boolean or a number. *)
Inductive JsVal := JBool (b : bool) | JNum (n : Z).

Definition js_truthy (v : JsVal) : bool :=
  match v with
  | JBool b => b
  | JNum n => negb (n =? 0)
  end.

(** [a || b]: [a] when it is truthy, [b] otherwise. *)
Definition js_or (a b : JsVal) : JsVal :=
  if js_truthy a then a else b.

(** [parseInt(x)] is a number or [NaN] ([None]); [parseInt(x) || d]
    falls back to [d] on [NaN] and on [0]. *)
Definition parseInt_or (p : option Z) (d : Z) : Z :=
  match p with
  | Some n => if n =? 0 then d else n
  | None => d
  end.

(** [a >= b] for numbers, with [b] possibly [NaN] (always false). *)
Definition js_ge (a : Z) (b : option Z) : bool :=
  match b with
  | Some b' => b' <=? a
  | None => false
  end.

(* ------------------------------------------------------------------ *)
(** ** AIReply: rate limiter ([checkRateLimit]) *)

Module AIReply.

Record RateEntry := mkRate { count : Z; resetTime : Z }.

(** [checkRateLimit(fromNumber)] with [Date.now() = now] and
    [parseInt(process.env.MESSAGE_RATE_LIMIT) = env_limit].  An entry
    already in [rateLimits] is the object mutated in place by the reset;
    a fresh entry is stored only by the final [set]. *)
Definition checkRateLimit (env_limit : option Z) (now : Z)
    (fromNumber : jsstr) (rateLimits : gmap jsstr RateEntry)
    : bool * gmap jsstr RateEntry :=
  let stored := rateLimits !! fromNumber in
  let userLimits := default (mkRate 0 now) stored in
  let userLimits :=
    if resetTime userLimits <? now then mkRate 0 (now + 60000)
    else userLimits in
  let rateLimits :=
    match stored with
    | Some _ => <[fromNumber := userLimits]> rateLimits
    | None => rateLimits
    end in
  (* if (userLimits.count >= parseInt(process.env.MESSAGE_RATE_LIMIT) || 2) *)
  if js_truthy (js_or (JBool (js_ge (count userLimits) env_limit)) (JNum 2))
  then (false, rateLimits)
  else
    let userLimits := mkRate (count userLimits + 1) (resetTime userLimits) in
    (true, <[fromNumber := userLimits]> rateLimits).

(** The reply categories returned by [detectLanguage]. *)
Inductive Lang := hinglish | hindi | english | urdu | bengali | tamil | gujarati.

Definition in_range (lo hi c : Z) : bool := (lo <=? c) && (c <=? hi).

(** [[a-zA-Z]]; under the [i] flag it matches the same code units
    (non-ASCII code units are never canonicalised to ASCII). *)
Definition is_latin (c : Z) : bool := in_range 65 90 c || in_range 97 122 c.
(** [[\u0900-\u097F]] *)
Definition is_devanagari : Z -> bool := in_range 2304 2431.
(** [[\u0600-\u06FF]] *)
Definition is_arabic : Z -> bool := in_range 1536 1791.
(** [[\u0980-\u09FF]] *)
Definition is_bengali : Z -> bool := in_range 2432 2559.
(** [[\u0B80-\u0BFF]] *)
Definition is_tamil : Z -> bool := in_range 2944 3071.
(** [[\u0A80-\u0AFF]] *)
Definition is_gujarati : Z -> bool := in_range 2688 2815.
(** [\d] *)
Definition is_digit : Z -> bool := in_range 48 57.

(** Drop a maximal run of non-whitespace code units ([[^\s]*]). *)
Fixpoint drop_nonspace (s : jsstr) : jsstr :=
  match s with
  | [] => []
  | c :: r => if is_js_space c then s else drop_nonspace r
  end.

(** A match of [p[^\s]+] at the start of [s]: what follows the match. *)
Definition url_tail (p s : jsstr) : option jsstr :=
  if startsWith s p then
    match drop (length p) s with
    | c :: r => if is_js_space c then None else Some (drop_nonspace r)
    | [] => None
    end
  else None.

(** A match of [https?:\/\/[^\s]+] at the start of [s]. *)
Definition url_match (s : jsstr) : option jsstr :=
  match url_tail (lit "https://") s with
  | Some t => Some t
  | None => url_tail (lit "http://") s
  end.

(** [s.replace(/https?:\/\/[^\s]+/g, '')]; each removed match is non-empty,
    so [length s] rounds suffice. *)
Fixpoint remove_urls_fuel (fuel : nat) (s : jsstr) : jsstr :=
  match fuel with
  | O => s
  | Datatypes.S f =>
      match url_match s with
      | Some rest => remove_urls_fuel f rest
      | None =>
          match s with
          | [] => []
          | c :: r => c :: remove_urls_fuel f r
          end
      end
  end.

Definition remove_urls (s : jsstr) : jsstr := remove_urls_fuel (length s) s.

(** [s.replace(/\d+/g, '')] *)
Definition remove_digits (s : jsstr) : jsstr := filter (fun c => negb (is_digit c)) s.

(** [text.replace(URLs, '').replace(/\d+/g, '').trim()] *)
Definition cleanText (text : jsstr) : jsstr := trim (remove_digits (remove_urls text)).

(** The lookahead [(?=.*X)] at the suffix [u]: [X] matches at some
    position reached without crossing a line terminator. *)
Fixpoint lookahead_dot_star (X : jsstr -> bool) (u : jsstr) : bool :=
  X u ||
  match u with
  | [] => false
  | c :: r => negb (is_line_terminator c) && lookahead_dot_star X r
  end.

Definition char_at (P : Z -> bool) (u : jsstr) : bool :=
  match u with
  | c :: _ => P c
  | [] => false
  end.

(** ASCII case folding, the canonicalisation of the [i] flag on ASCII. *)
Definition ascii_lower (c : Z) : Z := if in_range 65 90 c then c + 32 else c.

(** [u] starts with the lower-case ASCII word [w], ignoring case. *)
Fixpoint startsWith_ci (u w : jsstr) : bool :=
  match w, u with
  | [], _ => true
  | c :: w', d :: u' => (c =? ascii_lower d) && startsWith_ci u' w'
  | _ :: _, [] => false
  end.

Definition hinglish_markers : list jsstr :=
  map lit ["hai"; "hain"; "kya"; "kaise"; "kaha"; "kab"; "kyun"; "jo"; "ki";
           "ka"; "ke"; "ko"; "me"; "se"; "pe"; "par"]%string.

(** The alternation [(?:hai|hain|...|par)] at the start of [u]. *)
Definition marker_at (u : jsstr) : bool :=
  existsb (startsWith_ci u) hinglish_markers.

(** [(?=.*[a-zA-Z])(?=.*[\u0900-\u097F])|(?=.*[a-zA-Z])(?=.*(?:hai|...))]
    tried at the start of [u]. *)
Definition hinglish_at (u : jsstr) : bool :=
  (lookahead_dot_star (char_at is_latin) u &&
   lookahead_dot_star (char_at is_devanagari) u) ||
  (lookahead_dot_star (char_at is_latin) u &&
   lookahead_dot_star marker_at u).

(** [re.test(s)] for an unanchored pattern: a match at some position. *)
Fixpoint regex_search (m : jsstr -> bool) (s : jsstr) : bool :=
  m s ||
  match s with
  | [] => false
  | _ :: r => regex_search m r
  end.

(** [/^[a-zA-Z\s.,!?'Q]*$/.test(s)], where Q is the double quote
    (code unit 34): the whole string is made of these code units. *)
Definition english_test (s : jsstr) : bool :=
  forallb (fun c => is_latin c || is_js_space c ||
                    existsb (Z.eqb c) [46; 44; 33; 63; 39; 34]) s.

(** [detectLanguage(text)] *)
Definition detectLanguage (text : jsstr) : Lang :=
  let cleanText := cleanText text in
  if regex_search hinglish_at cleanText then hinglish
  else if existsb is_devanagari cleanText then hindi
  else if existsb is_arabic cleanText then urdu
  else if existsb is_bengali cleanText then bengali
  else if existsb is_tamil cleanText then tamil
  else if existsb is_gujarati cleanText then gujarati
  else if english_test cleanText then english
  else hinglish.

(** ** AIReply: conversation history *)

(** [{ userMessage, aiReply, language, timestamp }]; the ISO timestamp is
    kept as the milliseconds it denotes. *)
Record ConversationTurn := mkTurn {
  userMessage : jsstr; aiReply : jsstr; language : Lang; timestamp : Z }.

Abbreviation History := (gmap jsstr (list ConversationTurn)).

(** [getConversationHistory(fromNumber)] *)
Definition getConversationHistory (conversationHistory : History)
    (fromNumber : jsstr) : list ConversationTurn :=
  default [] (conversationHistory !! fromNumber).

(** [updateConversationHistory(fromNumber, userMessage, aiReply, language)]
    at [new Date() = now]: push, then one [shift] when over 10, then
    [set]. *)
Definition updateConversationHistory (conversationHistory : History)
    (fromNumber userMessage aiReply : jsstr) (language : Lang) (now : Z)
    : History :=
  let history := getConversationHistory conversationHistory fromNumber ++
                 [mkTurn userMessage aiReply language now] in
  let history := if Nat.ltb 10 (length history) then tail history else history in
  <[fromNumber := history]> conversationHistory.

Definition maxAge : Z := 24 * 60 * 60 * 1000.

(** An entry survives [cleanupOldConversations] at [now]. *)
Definition keep_conversation (now : Z) (history : list ConversationTurn) : bool :=
  match last history with
  | None => false
  | Some lastMessage => negb (maxAge <? now - timestamp lastMessage)
  end.

Definition keep_rate_limit (now : Z) (limits : RateEntry) : bool :=
  negb (resetTime limits + 300000 <? now).

(** [cleanupOldConversations()] at [Date.now() = now], on both maps. *)
Definition cleanupOldConversations (now : Z) (conversationHistory : History)
    (rateLimits : gmap jsstr RateEntry) : History * gmap jsstr RateEntry :=
  (filter (fun kv => keep_conversation now kv.2 = true) conversationHistory,
   filter (fun kv => keep_rate_limit now kv.2 = true) rateLimits).

(** The state of an [AIReply] instance. *)
Record AIState := mkAI {
  conversationHistory : History;
  rateLimits : gmap jsstr RateEntry }.

(** The history-mutating operations of [AIReply]: a recorded exchange
    ([generateReply]), the [/clear] command ([handleSpecialCommands]),
    the hourly sweep and [shutdown]. *)
Inductive HistoryOp :=
  | OpUpdate (fromNumber userMessage aiReply : jsstr) (language : Lang) (now : Z)
  | OpClear (fromNumber : jsstr)
  | OpCleanup (now : Z)
  | OpShutdown.

(** Every contact's history holds at most 10 turns. *)
Definition history_bounded (h : History) : Prop :=
  map_Forall (fun _ l => (length l <= 10)%nat) h.

Definition apply_op (st : AIState) (op : HistoryOp) : AIState :=
  match op with
  | OpUpdate k u r l now =>
      mkAI (updateConversationHistory (conversationHistory st) k u r l now)
           (rateLimits st)
  | OpClear k => mkAI (delete k (conversationHistory st)) (rateLimits st)
  | OpCleanup now =>
      let '(h, rl) := cleanupOldConversations now (conversationHistory st)
                        (rateLimits st) in mkAI h rl
  | OpShutdown => mkAI ∅ ∅
  end.

(** ** AIReply: replies *)

(** [getFallbackReply(language)] *)
Definition getFallbackReply (language : Lang) : jsstr :=
  match language with
  | hinglish => lit "Sorry yaar, thoda issue ho gaya. Tum bolo kya chahiye? " ++ emoji_sweat
  | hindi => [2350; 2366; 2347; 32; 2325; 2352; 2375; 2306; 44; 32; 2325; 2369;
              2331; 32; 2360; 2350; 2360; 2381; 2351; 2366; 32; 2361; 2379; 32;
              2327; 2312; 2404; 32; 2310; 2346; 32; 2348; 2340; 2366; 2319; 2306;
              32; 2325; 2381; 2351; 2366; 32; 2330; 2366; 2361; 2367; 2319; 63;
              32] ++ emoji_sweat
  | english => lit "Sorry, I encountered an issue. What can I help you with? " ++ emoji_sweat
  | urdu => [1605; 1593; 1575; 1601; 32; 1705; 1585; 1740; 1722; 1548; 32; 1705;
             1670; 1726; 32; 1605; 1587; 1574; 1604; 1729; 32; 1729; 1608; 32;
             1711; 1740; 1575; 1748; 32; 1570; 1662; 32; 1576; 1578; 1575; 1574;
             1740; 1722; 32; 1705; 1740; 1575; 32; 1670; 1575; 1729; 1740; 1746;
             1567; 32] ++ emoji_sweat
  | bengali => [2470; 2497; 2435; 2454; 2495; 2468; 44; 32; 2453; 2495; 2459; 2497;
                32; 2488; 2478; 2488; 2509; 2479; 2494; 32; 2489; 2479; 2492; 2503;
                2459; 2503; 2404; 32; 2438; 2474; 2472; 2495; 32; 2476; 2482; 2497;
                2472; 32; 2453; 2496; 32; 2482; 2494; 2455; 2476; 2503; 63;
                32] ++ emoji_sweat
  | tamil => [2990; 2985; 3021; 2985; 3007; 2965; 3021; 2965; 2997; 3009; 2990; 3021;
              44; 32; 2970; 3007; 2994; 32; 2986; 3007; 2992; 2970; 3021; 2970;
              2985; 3016; 32; 2959; 2993; 3021; 2986; 2975; 3021; 2975; 2980; 3009;
              46; 32; 2984; 3008; 2969; 3021; 2965; 2995; 3021; 32; 2958; 2985;
              3021; 2985; 32; 2997; 3015; 2979; 3021; 2975; 3009; 2990; 3021; 32;
              2958; 2985; 3021; 2993; 3009; 32; 2970; 3018; 2994; 3021; 2994; 3009;
              2969; 3021; 2965; 2995; 3021; 63; 32] ++ emoji_sweat
  | gujarati => [2734; 2750; 2731; 32; 2709; 2736; 2742; 2763; 44; 32; 2725; 2763;
                 2721; 2752; 32; 2744; 2734; 2744; 2765; 2735; 2750; 32; 2725; 2696;
                 46; 32; 2724; 2734; 2759; 32; 2709; 2745; 2763; 32; 2742; 2753;
                 2690; 32; 2716; 2763; 2696; 2703; 63; 32] ++ emoji_sweat
  end.

(** [generateReply(message, fromNumber)] at [Date.now() = now].
    [api] is what [callGeminiAPI(prompt)] resolves to: [None] for [null]
    (network error, timeout, error status or malformed payload, all
    caught inside [callGeminiAPI]) or the cleaned reply text.  [null]
    ([None]) is returned when rate limited. *)
Definition generateReply (env_limit : option Z) (now : Z)
    (message fromNumber : jsstr) (api : option jsstr) (st : AIState)
    : option jsstr * AIState :=
  let '(allowed, rl) := checkRateLimit env_limit now fromNumber (rateLimits st) in
  let st := mkAI (conversationHistory st) rl in
  if negb allowed then (None, st)
  else
    let language := detectLanguage message in
    match api with
    | Some aiResponse =>
        (* if (aiResponse): the empty string is falsy *)
        if negb (Nat.eqb (length aiResponse) 0) then
          (Some aiResponse,
           mkAI (updateConversationHistory (conversationHistory st) fromNumber
                   message aiResponse language now) (rateLimits st))
        else (Some (getFallbackReply language), st)
    | None => (Some (getFallbackReply language), st)
    end.

(** A whole [generateReply] run, the path that records exchanges, or one
    of the other history-mutating operations. *)
Definition apply_any (st : AIState)
    (op : (option Z * Z * jsstr * jsstr * option jsstr) + HistoryOp) : AIState :=
  match op with
  | inl (env_limit, now, message, fromNumber, api) =>
      snd (generateReply env_limit now message fromNumber api st)
  | inr op => apply_op st op
  end.

(** A freshly constructed [AIReply]: both maps empty. *)
Definition initial : AIState := mkAI ∅ ∅.

(** ** AIReply: response cleaning ([cleanAIResponse]) *)

(** The lazy group [(.*?)] followed by the closing delimiter [d], at the
    start of [s]: the group and what follows the delimiter.  [.] stops at
    line terminators. *)
Fixpoint lazy_close (d s : jsstr) : option (jsstr * jsstr) :=
  if startsWith s d then Some ([], drop (length d) s)
  else
    match s with
    | [] => None
    | c :: r =>
        if is_line_terminator c then None
        else option_map (fun gt => (c :: gt.1, gt.2)) (lazy_close d r)
    end.

(** [s.replace(/d(.*?)d/g, '$1')] for a non-empty delimiter [d]: each
    match is replaced by its group; a position where no match starts
    keeps its code unit.  Every match is non-empty, so [length s] rounds
    suffice. *)
Fixpoint replace_lazy_fuel (d : jsstr) (fuel : nat) (s : jsstr) : jsstr :=
  match fuel with
  | O => s
  | Datatypes.S f =>
      match (if startsWith s d then lazy_close d (drop (length d) s) else None) with
      | Some (g, rest) => g ++ replace_lazy_fuel d f rest
      | None =>
          match s with
          | [] => []
          | c :: r => c :: replace_lazy_fuel d f r
          end
      end
  end.

Definition replace_lazy (d s : jsstr) : jsstr := replace_lazy_fuel d (length s) s.

(** The greedy [\s*] at the start of [s]: the run and what follows it. *)
Fixpoint space_run (s : jsstr) : jsstr * jsstr :=
  match s with
  | [] => ([], [])
  | c :: r =>
      if is_js_space c then let '(w, t) := space_run r in (c :: w, t) else ([], s)
  end.

(** What follows the last line feed of [w] ([w] itself when it has none). *)
Fixpoint after_last_lf (w : jsstr) : jsstr :=
  match w with
  | [] => []
  | c :: r =>
      if existsb (Z.eqb 10) r then after_last_lf r
      else if c =? 10 then r else w
  end.

(** A match of [\n\s*\n\s*\n] at the start of [s]: what follows it.  The
    match stays inside the whitespace run after the first line feed and,
    both [\s*] being greedy, ends at the last line feed of that run. *)
Definition blank_lines_at (s : jsstr) : option jsstr :=
  match s with
  | c :: r =>
      if c =? 10 then
        let '(w, t) := space_run r in
        if Nat.leb 2 (length (List.filter (Z.eqb 10) w)) then Some (after_last_lf w ++ t)
        else None
      else None
  | [] => None
  end.

(** [s.replace(/\n\s*\n\s*\n/g, '\n\n')] *)
Fixpoint collapse_blank_lines_fuel (fuel : nat) (s : jsstr) : jsstr :=
  match fuel with
  | O => s
  | Datatypes.S f =>
      match blank_lines_at s with
      | Some rest => [10; 10] ++ collapse_blank_lines_fuel f rest
      | None =>
          match s with
          | [] => []
          | c :: r => c :: collapse_blank_lines_fuel f r
          end
      end
  end.

Definition collapse_blank_lines (s : jsstr) : jsstr :=
  collapse_blank_lines_fuel (length s) s.

(** [cleanAIResponse(response)] *)
Definition cleanAIResponse (response : jsstr) : jsstr :=
  let cleaned := replace_lazy (lit "**") response in
  let cleaned := replace_lazy (lit "*") cleaned in
  let cleaned := replace_lazy (lit "`") cleaned in
  let cleaned := collapse_blank_lines cleaned in
  let cleaned := trim cleaned in
  if Nat.ltb 500 (length cleaned) then take 497 cleaned ++ lit "..." else cleaned.

(** ** AIReply: statistics and special commands *)

#[global] Instance Lang_eq_dec : EqDecision Lang.
Proof. solve_decision. Defined.

Definition all_langs : list Lang :=
  [hinglish; hindi; english; urdu; bengali; tamil; gujarati].

(** [Array.from(this.conversationHistory.values())]; the order of a
    [Map]'s values does not matter to the sums taken over them. *)
Definition histories (h : History) : list (list ConversationTurn) :=
  map snd (map_to_list h).

(** [getLanguageStats()]: the [languageCounts] object as a count per
    category, a missing key being [0]. *)
Definition getLanguageStats (h : History) : Lang -> nat :=
  fold_left
    (fun languageCounts entry =>
       fun l => if decide (l = language entry) then languageCounts l + 1
                else languageCounts l)%nat
    (concat (histories h)) (fun _ => 0%nat).

Record Stats := mkStats {
  activeConversations : nat;
  totalMessages : nat;
  rateLimitedUsers : nat;
  languages : Lang -> nat }.

(** [getStats()] *)
Definition getStats (st : AIState) : Stats :=
  mkStats (size (conversationHistory st))
          (fold_left (fun sum history => sum + length history)%nat
             (histories (conversationHistory st)) 0%nat)
          (size (rateLimits st))
          (getLanguageStats (conversationHistory st)).

(** [getHelpMessage(language)]: the help text chosen, by the category
    whose text is returned ([helpMessages[language] || helpMessages.hinglish]). *)
Definition getHelpMessage (language : Lang) : Lang :=
  match language with
  | hindi => hindi
  | english => english
  | _ => hinglish
  end.

(** The text returned by [handleSpecialCommands], by what determines it:
    the help text of a category, the clear confirmation, or the status
    text with its two numbers. *)
Inductive CommandReply :=
  | CmdHelp (helpLanguage : Lang)
  | CmdCleared
  | CmdStatus (activeConversations totalMessages : nat).

(** The Devanagari word for help (U+092E U+0926 U+0926). *)
Definition madad : jsstr := [2350; 2342; 2342].

(** [handleSpecialCommands(message, fromNumber)], with
    [String.prototype.toLowerCase] as [toLowerCase]; [None] is [null]. *)
Definition handleSpecialCommands (toLowerCase : jsstr -> jsstr)
    (message fromNumber : jsstr) (st : AIState) : option CommandReply * AIState :=
  let lowerMessage := trim (toLowerCase message) in
  if bool_decide (lowerMessage = lit "/help") || bool_decide (lowerMessage = lit "help") ||
     bool_decide (lowerMessage = madad)
  then (Some (CmdHelp (getHelpMessage (detectLanguage message))), st)
  else if bool_decide (lowerMessage = lit "/clear") ||
          bool_decide (lowerMessage = lit "clear history")
  then (Some CmdCleared, mkAI (delete fromNumber (conversationHistory st)) (rateLimits st))
  else if bool_decide (lowerMessage = lit "/status")
  then let stats := getStats st in
       (Some (CmdStatus (activeConversations stats) (totalMessages stats)), st)
  else (None, st).

(** The result of [generateContextAwareReply]: a command's text, or what
    [generateReply] resolves to. *)
Inductive ContextReply :=
  | SpecialReply (c : CommandReply)
  | GeneratedReply (r : option jsstr).

(** [generateContextAwareReply(message, fromNumber, context)]; the
    sentiment and language analysis only fill [context], which reaches
    [generateReply] through the prompt, i.e. through [api]. *)
Definition generateContextAwareReply (toLowerCase : jsstr -> jsstr)
    (env_limit : option Z) (now : Z) (message fromNumber : jsstr)
    (api : option jsstr) (st : AIState) : ContextReply * AIState :=
  match handleSpecialCommands toLowerCase message fromNumber st with
  | (Some c, st') => (SpecialReply c, st')
  | (None, st') =>
      let '(r, st'') := generateReply env_limit now message fromNumber api st' in
      (GeneratedReply r, st'')
  end.

(** [(s.match(/[P]+/g) || []).length]: the number of maximal runs of
    code units satisfying [P]; [inrun] says whether the previous code unit
    satisfied it. *)
Fixpoint count_runs (P : Z -> bool) (inrun : bool) (s : jsstr) : nat :=
  match s with
  | [] => 0%nat
  | c :: r =>
      if P c then ((if inrun then 0 else 1) + count_runs P true r)%nat
      else count_runs P false r
  end.

Record LangAnalysis := mkAnalysis {
  dominantLanguage : Lang;      (* 'hindi' and 'english' for mixed content *)
  mixedContent : bool;
  hindiRatio : option Q }.      (* None: NaN *)

(** [processAdvancedLanguage(message, language)]; [None] is the [NaN] of
    [0 / 0]. *)
Definition processAdvancedLanguage (message : jsstr) (language : Lang) : LangAnalysis :=
  if decide (language = hinglish) then
    let hindiWords := count_runs is_devanagari false message in
    let englishWords := count_runs is_latin false message in
    mkAnalysis (if Nat.ltb englishWords hindiWords then hindi else english) true
      (if Nat.eqb (hindiWords + englishWords) 0 then None
       else Some (inject_Z (Z.of_nat hindiWords) /
                  inject_Z (Z.of_nat (hindiWords + englishWords)))%Q)
  else mkAnalysis language false (Some 0%Q).

End AIReply.

(* ------------------------------------------------------------------ *)
(** ** GeminiAI (src/unnamed/part_001) *)

Module GeminiAI.

Inductive EntryType := User | Bot.

(** [{ type, message, timestamp }] *)
Record ChatEntry := mkEntry { type : EntryType; message : jsstr; timestamp : Z }.

Abbreviation ChatHistory := (gmap jsstr (list ChatEntry)).

Record GeminiState := mkGemini {
  chatHistory : ChatHistory;
  lastReplyTime : gmap jsstr Z }.

(** [getChatHistory(contactNumber)] *)
Definition getChatHistory (chatHistory : ChatHistory) (contactNumber : jsstr)
    : list ChatEntry :=
  default [] (chatHistory !! contactNumber).

(** [history.slice(-10)] *)
Definition slice_last10 {A} (l : list A) : list A := drop (length l - 10) l.

(** [updateChatHistory(contactNumber, userMessage, botReply)] at
    [new Date() = now]. *)
Definition updateChatHistory (chatHistory : ChatHistory)
    (contactNumber userMessage botReply : jsstr) (now : Z) : ChatHistory :=
  let history := getChatHistory chatHistory contactNumber ++
                 [mkEntry User userMessage now; mkEntry Bot botReply now] in
  let history := if Nat.ltb 10 (length history) then slice_last10 history
                 else history in
  <[contactNumber := history]> chatHistory.

(** [clearChatHistory(contactNumber)] *)
Definition clearChatHistory (chatHistory : ChatHistory) (contactNumber : jsstr)
    : ChatHistory :=
  delete contactNumber chatHistory.

Definition oneDay : Z := 24 * 60 * 60 * 1000.

(** An entry survives [cleanup()] at [now]: empty histories are skipped. *)
Definition keep_chat (now : Z) (history : list ChatEntry) : bool :=
  match last history with
  | None => true
  | Some lastMessage => negb (oneDay <? now - timestamp lastMessage)
  end.

(** [cleanup()] at [Date.now() = now] *)
Definition cleanup (now : Z) (chatHistory : ChatHistory) : ChatHistory :=
  filter (fun kv => keep_chat now kv.2 = true) chatHistory.

(** [canReply(contactNumber)] at [Date.now() = now] with
    [parseInt(process.env.MAX_MESSAGES_PER_MINUTE) = env_max]; the
    division [oneMinute / maxMessagesPerMinute] is exact (over Q). *)
Definition canReply (env_max : option Z) (now : Z) (contactNumber : jsstr)
    (lastReplyTime : gmap jsstr Z) : bool :=
  let maxMessagesPerMinute := parseInt_or env_max 2 in
  let oneMinute := 60 * 1000 in
  match lastReplyTime !! contactNumber with
  | None => true
  | Some 0 => true
  | Some lastReply =>
      negb (Qle_bool (inject_Z (now - lastReply))
                     (inject_Z oneMinute / inject_Z maxMessagesPerMinute))
  end.

(** [detectLanguage(text)]; both branches after the single-script tests
    return ['hinglish']. *)
Definition detectLanguage (text : jsstr) : AIReply.Lang :=
  let hindiWords := existsb AIReply.is_devanagari text in
  let englishWords := existsb AIReply.is_latin text in
  if hindiWords && englishWords then AIReply.hinglish
  else if hindiWords then AIReply.hindi
  else if englishWords then AIReply.english
  else AIReply.hinglish.

(** The [fallbackReplies] array. *)
Definition fallbackReplies : list jsstr :=
  [lit "Sorry yaar, thoda technical issue ho gaya " ++ emoji_sweat ++
     lit " Kya keh rahe the?";
   lit "Arre yaar, samjha nahi. Thoda aur detail mein batao na " ++ [55358; 56596];
   lit "Oops! Kuch problem hai mere system mein. Dobara try karo " ++ [55357; 56842];
   lit "Sorry bro, connection issue hai. Thoda wait karo " ++ [55357; 56911];
   lit "Arre, maine suna nahi properly. Phir se bolo na " ++ [55357; 56386]].

(** [getFallbackReply(originalMessage)] with
    [Math.floor(Math.random() * fallbackReplies.length) = pick]. *)
Definition getFallbackReply (pick : nat) : jsstr := nth pick fallbackReplies [].

(** [generateReply(messageText, contactNumber, contactName)] at
    [Date.now() = now].  [api] is [response.text()] of the awaited
    [generateContent(prompt)], or [None] when that call rejects or
    [text()] throws; the [catch] then returns a random fallback. *)
Definition generateReply (env_max : option Z) (now : Z)
    (messageText contactNumber : jsstr) (api : option jsstr) (pick : nat)
    (st : GeminiState) : option jsstr * GeminiState :=
  if negb (canReply env_max now contactNumber (lastReplyTime st)) then (None, st)
  else
    match api with
    | Some text =>
        let reply := trim text in
        (Some reply,
         mkGemini (updateChatHistory (chatHistory st) contactNumber messageText reply now)
                  (<[contactNumber := now]> (lastReplyTime st)))
    | None => (Some (getFallbackReply pick), st)
    end.

(** The history-mutating operations of [GeminiAI]. *)
Inductive HistoryOp :=
  | GOpGenerate (env_max : option Z) (now : Z) (messageText contactNumber : jsstr)
      (api : option jsstr) (pick : nat)
  | GOpClear (contactNumber : jsstr)
  | GOpCleanup (now : Z).

Definition apply_op (st : GeminiState) (op : HistoryOp) : GeminiState :=
  match op with
  | GOpGenerate env_max now m c api pick => snd (generateReply env_max now m c api pick st)
  | GOpClear c => mkGemini (clearChatHistory (chatHistory st) c) (lastReplyTime st)
  | GOpCleanup now => mkGemini (cleanup now (chatHistory st)) (lastReplyTime st)
  end.

Definition history_bounded (h : ChatHistory) : Prop :=
  map_Forall (fun _ l => (length l <= 10)%nat) h.

Definition initial : GeminiState := mkGemini ∅ ∅.

Record Stats := mkStats {
  totalChats : nat;
  totalMessages : nat;
  activeChats : nat }.

(** [getStats()] at [Date.now() = now]; [lastMessage] is [undefined]
    (falsy) for an empty history. *)
Definition getStats (now : Z) (chatHistory : ChatHistory) : Stats :=
  let values := map snd (map_to_list chatHistory) in
  let oneHour := 60 * 60 * 1000 in
  mkStats (size chatHistory)
          (fold_left (fun total history => total + length history)%nat values 0%nat)
          (length (List.filter (fun history =>
                             match last history with
                             | Some lastMessage => now - timestamp lastMessage <? oneHour
                             | None => false
                             end) values)).

(** A history made of whole exchanges: a [User] entry followed by a
    [Bot] entry, repeated. *)
Fixpoint exchanges (l : list ChatEntry) : Prop :=
  match l with
  | [] => True
  | u :: b :: r => type u = User /\ type b = Bot /\ exchanges r
  | [_] => False
  end.

End GeminiAI.

(* ------------------------------------------------------------------ *)
(** ** SessionManager (src/unnamed/part_000, first class) *)

Module SessionManager.

(** The fields of an inbound whatsapp-web.js message read by the pipeline. *)
Record Message := mkMessage {
  from : jsstr; fromMe : bool; msg_timestamp : Z (* seconds *); body : jsstr }.

(** [message.getContact()]: number and display name. *)
Record Contact := mkContact { number : jsstr; contactName : jsstr }.

(** How [sendReplyWithTyping(message, reply, contactName)] settles:
    it resolves; one of [message.getChat()], [chat.sendStateTyping()] or
    [chat.clearState()] rejects before the reply is handed over; or the
    final [message.reply(reply)] rejects.  Each rejection is rethrown. *)
Inductive Delivery := Delivered | FailsBeforeReply | ReplyRejects.

(** What the awaited external calls of one pipeline run resolve to. *)
Record World := mkWorld {
  w_now : Z;                       (* Date.now() *)
  w_contact : option Contact;      (* getContact(); None: it rejects *)
  w_env_max : option Z;            (* parseInt(MAX_MESSAGES_PER_MINUTE) *)
  w_api : option jsstr;            (* generateContent(...).response.text() *)
  w_pick : nat;                    (* the random fallback index *)
  w_delivery : Delivery }.         (* how sendReplyWithTyping settles *)

(** The fields of a [SessionManager] instance; [restartTimers] holds the
    due times of the pending [setTimeout(restartClient, 5000)] timers and
    [client] the handle of the adapter ([null] is [None]). *)
Record SM := mkSM {
  client : option Z;
  isReady : bool;
  qrRetries : Z;
  messageCount : Z;
  activeChats : gset jsstr;
  geminiAI : GeminiAI.GeminiState;
  restartTimers : list Z }.

(** What the pipeline hands to [message.reply]. *)
Inductive Outbound := SentReply (text : jsstr).

Definition apology : jsstr :=
  lit "Sorry, kuch technical problem hai. Thoda baad try karo " ++ emoji_sweat.

Definition set_activeChats (s : SM) (a : gset jsstr) : SM :=
  mkSM (client s) (isReady s) (qrRetries s) (messageCount s) a (geminiAI s)
       (restartTimers s).
Definition set_geminiAI (s : SM) (g : GeminiAI.GeminiState) : SM :=
  mkSM (client s) (isReady s) (qrRetries s) (messageCount s) (activeChats s) g
       (restartTimers s).
Definition set_messageCount (s : SM) (n : Z) : SM :=
  mkSM (client s) (isReady s) (qrRetries s) n (activeChats s) (geminiAI s)
       (restartTimers s).

(** [handleIncomingMessage(message)] *)
Definition handleIncomingMessage (w : World) (message : Message) (s : SM)
    : SM * list Outbound :=
  if negb (isReady s) || fromMe message then (s, [])
  else if includes (from message) (lit "@g.us") then (s, [])
  else if message.(msg_timestamp) * 1000 <? w_now w - 5 * 60 * 1000 then (s, [])
  else
    match w_contact w with
    | None => (s, [SentReply apology])          (* catch: fallback reply *)
    | Some contact =>
        let messageText := trim (body message) in
        if Nat.eqb (length messageText) 0 then (s, [])
        else
          let s := set_activeChats s ({[number contact]} ∪ activeChats s) in
          let '(aiReply, g) :=
            GeminiAI.generateReply (w_env_max w) (w_now w) messageText
              (number contact) (w_api w) (w_pick w) (geminiAI s) in
          let s := set_geminiAI s g in
          match aiReply with
          | Some reply =>
              if Nat.eqb (length reply) 0 then (s, [])   (* if (aiReply) *)
              else
                match w_delivery w with
                | Delivered =>
                    (set_messageCount s (messageCount s + 1), [SentReply reply])
                | FailsBeforeReply =>
                    (s, [SentReply apology])            (* catch: fallback reply *)
                | ReplyRejects =>                       (* reply handed over, then *)
                    (s, [SentReply reply; SentReply apology])  (* catch: fallback *)
                end
          | None => (s, [])
          end
    end.

(** [sendReplyWithTyping]: the typing delay, with
    [parseInt(TYPING_DELAY_MIN) = env_min],
    [parseInt(TYPING_DELAY_MAX) = env_max] and [Math.random() = rnd];
    the double arithmetic is taken exactly (over Q). *)
Definition typingDelay (env_min env_max : option Z) (rnd : Q) (reply : jsstr) : Q :=
  let typingDelayMin := parseInt_or env_min 1000 in
  let typingDelayMax := parseInt_or env_max 3000 in
  let baseDelay := (inject_Z typingDelayMin +
                    rnd * inject_Z (typingDelayMax - typingDelayMin))%Q in
  let charDelay := inject_Z (Z.of_nat (length reply) * 30) in
  Qmin (baseDelay + charDelay)%Q (inject_Z typingDelayMax).

(** The lifecycle events handled by a [SessionManager]. *)
Inductive LifeEvent :=
  (** the adapter's ['disconnected'] event at time [now] *)
  | EvDisconnected (now : Z)
  (** [stopClient()]; [destroy_ok]: [client.destroy()] resolves *)
  | EvStop (destroy_ok : bool)
  (** the earliest restart timer fires: [restartClient()], which builds
      the adapter [handle] in [initializeClient] *)
  | EvRestartTimer (destroy_ok : bool) (handle : Z).

Definition step (s : SM) (e : LifeEvent) : SM :=
  match e with
  | EvDisconnected now =>
      mkSM (client s) false (qrRetries s) (messageCount s) (activeChats s)
           (geminiAI s) (restartTimers s ++ [now + 5000])
  | EvStop destroy_ok =>
      match client s with
      | Some h =>
          mkSM (if destroy_ok then None else Some h) false (qrRetries s)
               (messageCount s) (activeChats s) (geminiAI s) (restartTimers s)
      | None => s
      end
  | EvRestartTimer destroy_ok handle =>
      match restartTimers s with
      | [] => s
      | _ :: timers =>
          match client s, destroy_ok with
          | Some _, false =>          (* destroy rejects: caught, no restart *)
              mkSM (client s) (isReady s) (qrRetries s) (messageCount s)
                   (activeChats s) (geminiAI s) timers
          | _, _ =>
              mkSM (Some handle) false 0 (messageCount s) (activeChats s)
                   (geminiAI s) timers
          end
      end
  end.

Definition run (s : SM) (es : list LifeEvent) : SM := fold_left step es s.

(** [sendMessage(to, message)]: whether it resolves to [{ success: true }]
    and the [client.sendMessage(chatId, message)] calls made; [send_ok]
    says whether that call resolves.  A [null] client makes the call
    throw a [TypeError] before any message leaves. *)
Definition sendMessage (send_ok : bool) (to message : jsstr) (s : SM)
    : bool * list (jsstr * jsstr) :=
  if negb (isReady s) then (false, [])        (* throw, caught *)
  else
    let chatId := if includes to (lit "@c.us") then to else to ++ lit "@c.us" in
    match client s with
    | None => (false, [])
    | Some _ => (send_ok, [(chatId, message)])
    end.

(** One tick of the 30 s interval of [startStatsUpdater()]. *)
Definition statsTick (s : SM) : SM :=
  if isReady s && Nat.ltb 50 (size (activeChats s)) then set_activeChats s ∅ else s.

Definition maxQrRetries : Z := 3.

Definition set_qrRetries (s : SM) (n : Z) : SM :=
  mkSM (client s) (isReady s) n (messageCount s) (activeChats s) (geminiAI s)
       (restartTimers s).

(** [restartClient()], run to completion: [destroy_ok] says whether
    [client.destroy()] resolves (a rejection is caught and nothing else
    changes); [initializeClient] then stores the new adapter [handle]. *)
Definition restartClient (destroy_ok : bool) (handle : Z) (s : SM) : SM :=
  match client s, destroy_ok with
  | Some _, false => s
  | _, _ => mkSM (Some handle) false 0 (messageCount s) (activeChats s) (geminiAI s)
                 (restartTimers s)
  end.

(** The authentication events of the adapter. *)
Inductive AuthEvent :=
  (** ['qr']: [qr_ok] says whether [QRCode.toDataURL] resolves.  The
      handler calls [this.restartClient()] without awaiting it; the step
      gives the state once that restart has completed, with no other event
      in between (until [client.destroy()] resolves the counter reads
      [maxQrRetries + 1]) *)
  | EvQr (qr_ok destroy_ok : bool) (handle : Z)
  (** ['authenticated'] *)
  | EvAuthenticated.

Definition auth_step (s : SM) (e : AuthEvent) : SM :=
  match e with
  | EvQr qr_ok destroy_ok handle =>
      if qr_ok then
        let s := set_qrRetries s (qrRetries s + 1) in
        if maxQrRetries <? qrRetries s then restartClient destroy_ok handle s else s
      else s                                   (* catch: error emitted *)
  | EvAuthenticated => set_qrRetries s 0
  end.

End SessionManager.

(* ------------------------------------------------------------------ *)
(** ** WhatsAppHandler (src/whatsapp-handler.js) *)

Module WhatsAppHandler.

(** A whatsapp-web.js [Client] built with [LocalAuth({ clientId })]. *)
Record Client := mkClient { clientId : jsstr }.

Abbreviation Clients := (gmap jsstr Client).

(** The errors the handler throws. *)
Inductive Error :=
  | MaxSessionsReached (maxSessions : Z)
  | SessionNotFound (sessionId : jsstr)
  | AdapterError.

(** A settled promise: resolved with a value or rejected. *)
Inductive Result (A : Type) := Ok (a : A) | Throw (e : Error).
Arguments Ok {A} a.
Arguments Throw {A} e.

(** [this.maxSessions = parseInt(process.env.MAX_SESSIONS) || 10] *)
Definition maxSessions (env_max : option Z) : Z := parseInt_or env_max 10.

(** [createClient(sessionId)].  The [Client] constructor and the [on]
    registrations do not reject, so the [catch] that rethrows is not
    reached. *)
Definition createClient (env_max : option Z) (sessionId : jsstr) (clients : Clients)
    : Result Client * Clients :=
  match clients !! sessionId with
  | Some c => (Ok c, clients)
  | None =>
      if maxSessions env_max <=? Z.of_nat (size clients)
      then (Throw (MaxSessionsReached (maxSessions env_max)), clients)
      else
        let client := mkClient sessionId in
        (Ok client, <[sessionId := client]> clients)
  end.

(** [cleanupSession(sessionId)]: [access_ok] / [rm_ok] say whether
    [fs.access] and [fs.rm] resolve; every rejection is caught. *)
Definition cleanupSession (access_ok rm_ok : bool) : Result unit :=
  (* inner try: fs.access then fs.rm; either failure lands in the catch
     that logs "already clean" *)
  let inner : Result unit :=
    if access_ok && rm_ok then Ok tt else Throw AdapterError in
  match inner with
  | Ok _ => Ok tt
  | Throw _ => Ok tt
  end.

(** [destroySession(sessionId)]; [destroy_ok] says whether
    [client.destroy()] resolves. *)
Definition destroySession (destroy_ok access_ok rm_ok : bool) (sessionId : jsstr)
    (clients : Clients) : Result bool * Clients :=
  match clients !! sessionId with
  | None => (Ok false, clients)
  | Some _ =>
      (* try { await client.destroy(); delete; await cleanupSession; true } *)
      let attempt : Result bool * Clients :=
        if destroy_ok then
          let clients := delete sessionId clients in
          match cleanupSession access_ok rm_ok with
          | Ok _ => (Ok true, clients)
          | Throw e => (Throw e, clients)
          end
        else (Throw AdapterError, clients) in
      match attempt with
      | (Ok b, cl) => (Ok b, cl)
      | (Throw _, cl) => (Ok false, delete sessionId cl)   (* catch *)
      end
  end.

(** [formatPhoneNumber(number)] *)
Definition formatPhoneNumber (number : jsstr) : jsstr :=
  let formatted := filter AIReply.is_digit number in          (* replace(/\D/g, '') *)
  let formatted :=
    if negb (startsWith formatted (lit "91")) && Nat.eqb (length formatted) 10
    then lit "91" ++ formatted else formatted in
  if negb (includes formatted (lit "@c.us")) then formatted ++ lit "@c.us"
  else formatted.

(** The adapter calls of [sendMessage] that carry a delivery target. *)
Inductive AdapterCall :=
  | GetChatById (chatId : jsstr)
  | SendTo (chatId : jsstr) (text : jsstr).

Definition call_target (c : AdapterCall) : jsstr :=
  match c with
  | GetChatById t => t
  | SendTo t _ => t
  end.

(** [sendMessage(sessionId, to, message)]: the adapter calls made, with
    [typing] for [process.env.TYPING_SIMULATION === 'true']. *)
Definition sendMessage (typing : bool) (sessionId to message : jsstr)
    (clients : Clients) : Result (list AdapterCall) :=
  match clients !! sessionId with
  | None => Throw (SessionNotFound sessionId)
  | Some _ =>
      let formattedNumber := formatPhoneNumber to in
      Ok ((if typing then [GetChatById formattedNumber] else []) ++
          [SendTo formattedNumber message])
  end.

(** [isValidWhatsAppNumber(number)] *)
Definition isValidWhatsAppNumber (number : jsstr) : bool :=
  let formattedNumber := formatPhoneNumber number in
  includes formattedNumber (lit "@c.us") && Nat.ltb 12 (length formattedNumber).

(** [s.replace(pat, rep)] with a string pattern: the first occurrence
    only. *)
Fixpoint replace_first (s pat rep : jsstr) : jsstr :=
  if startsWith s pat then rep ++ drop (length pat) s
  else
    match s with
    | [] => []
    | c :: r => c :: replace_first r pat rep
    end.

(** [extractPhoneFromMessage(message)] for a string or missing
    ([None]) [message.from]; the empty string is falsy. *)
Definition extractPhoneFromMessage (from : option jsstr) : option jsstr :=
  match from with
  | Some f => if Nat.eqb (length f) 0 then None else Some (replace_first f (lit "@c.us") [])
  | None => None
  end.

(** [restartSession(sessionId)]: [destroySession], the 2 s wait, then
    [createClient]. *)
Definition restartSession (env_max : option Z) (destroy_ok access_ok rm_ok : bool)
    (sessionId : jsstr) (clients : Clients) : Result Client * Clients :=
  let '(_, clients) := destroySession destroy_ok access_ok rm_ok sessionId clients in
  createClient env_max sessionId clients.

(** [cleanupAllSessions()]: [destroySession] for every key present at the
    start; [outcome] gives, per session, whether [client.destroy()],
    [fs.access] and [fs.rm] resolve.  Each call reads its client before
    the first [await] and deletes only its own key, so running them one
    after the other gives the registry [Promise.allSettled] ends with. *)
Definition cleanupAllSessions (outcome : jsstr -> bool * bool * bool)
    (clients : Clients) : Clients :=
  fold_left
    (fun cl sessionId =>
       let '(d, a, r) := outcome sessionId in snd (destroySession d a r sessionId cl))
    (map fst (map_to_list clients)) clients.

(** The operations that change the registry: the handler's methods and
    the ['auth_failure'] and ['disconnected'] handlers installed by
    [createClient]. *)
Inductive RegistryOp :=
  | RCreate (sessionId : jsstr)
  | RDestroy (destroy_ok access_ok rm_ok : bool) (sessionId : jsstr)
  | RRestart (destroy_ok access_ok rm_ok : bool) (sessionId : jsstr)
  | RCleanupAll (outcome : jsstr -> bool * bool * bool)
  | RAuthFailure (sessionId : jsstr)
  | RDisconnected (sessionId : jsstr).

Definition registry_step (env_max : option Z) (clients : Clients) (op : RegistryOp)
    : Clients :=
  match op with
  | RCreate sid => snd (createClient env_max sid clients)
  | RDestroy d a r sid => snd (destroySession d a r sid clients)
  | RRestart d a r sid => snd (restartSession env_max d a r sid clients)
  | RCleanupAll outcome => cleanupAllSessions outcome clients
  | RAuthFailure sid => delete sid clients
  | RDisconnected sid => delete sid clients   (* cleanupSession not awaited *)
  end.

End WhatsAppHandler.

(** A ready session with an adapter handle, fresh AI state and no timers. *)
Definition ready_session : SessionManager.SM :=
  SessionManager.mkSM (Some 1) true 0 0 ∅ GeminiAI.initial [].

(* ================================================================== *)
(** * Properties *)

(* ------------------------------------------------------------------ *)
(** ** Rate limiting *)

Lemma js_or_two_truthy (b : bool) : js_truthy (js_or (JBool b) (JNum 2)) = true.
Proof. by destruct b. Qed.

(** C1: the guard [userLimits.count >= parseInt(...) || 2] parses as
    [(count >= parseInt(...)) || 2], which is always truthy: every
    attempt is denied, whatever the count, the window and the
    configured limit. *)
Theorem checkRateLimit_always_denies :
  forall (env_limit : option Z) (now : Z) (fromNumber : jsstr)
         (rateLimits : gmap jsstr AIReply.RateEntry),
    fst (AIReply.checkRateLimit env_limit now fromNumber rateLimits) = false.
Proof.
  intros env_limit now fromNumber rateLimits.
  unfold AIReply.checkRateLimit.
  rewrite js_or_two_truthy. reflexivity.
Qed.

(* ------------------------------------------------------------------ *)
(** ** Session registry *)

(** C5: [createClient] returns the registered client and leaves the
    registry unchanged when [sessionId] is present; otherwise it
    rejects with the capacity error, registry unchanged, when
    [maxSessions] clients are live, and else registers and returns a
    new client for [sessionId]; a second call returns the same client. *)
Theorem createClient_idempotent_bounded :
  forall (env_max : option Z) (sessionId : jsstr) (clients : WhatsAppHandler.Clients),
    match clients !! sessionId with
    | Some c => WhatsAppHandler.createClient env_max sessionId clients = (WhatsAppHandler.Ok c, clients)
    | None =>
        if WhatsAppHandler.maxSessions env_max <=? Z.of_nat (size clients)
        then WhatsAppHandler.createClient env_max sessionId clients =
               (WhatsAppHandler.Throw
                  (WhatsAppHandler.MaxSessionsReached (WhatsAppHandler.maxSessions env_max)),
                clients)
        else exists c,
               WhatsAppHandler.clientId c = sessionId /\
               WhatsAppHandler.createClient env_max sessionId clients =
                 (WhatsAppHandler.Ok c, <[sessionId := c]> clients) /\
               WhatsAppHandler.createClient env_max sessionId (<[sessionId := c]> clients) =
                 (WhatsAppHandler.Ok c, <[sessionId := c]> clients)
    end.
Proof.
  intros env_max sessionId clients.
  unfold WhatsAppHandler.createClient.
  destruct (clients !! sessionId) as [c|] eqn:Hc; [reflexivity|].
  destruct (WhatsAppHandler.maxSessions env_max <=? Z.of_nat (size clients)); [reflexivity|].
  exists (WhatsAppHandler.mkClient sessionId). split; [reflexivity|]. split; [reflexivity|].
  by rewrite lookup_insert_eq.
Qed.

Lemma cleanupSession_resolves (access_ok rm_ok : bool) :
  WhatsAppHandler.cleanupSession access_ok rm_ok = WhatsAppHandler.Ok tt.
Proof. unfold WhatsAppHandler.cleanupSession. by destruct (access_ok && rm_ok). Qed.

(** C6 (amended): [destroySession] never rejects and [sessionId] is
    absent from the registry afterwards, also when [client.destroy()]
    rejects; a second consecutive call never rejects and leaves the
    registry unchanged, but resolves to [false] (not found), not to the
    success value [true]. *)
Theorem destroySession_total_and_second_call :
  forall (d a r d' a' r' : bool) (sessionId : jsstr) (clients : WhatsAppHandler.Clients),
    let '(res, clients1) := WhatsAppHandler.destroySession d a r sessionId clients in
    (exists b, res = WhatsAppHandler.Ok b) /\ clients1 !! sessionId = None /\
    WhatsAppHandler.destroySession d' a' r' sessionId clients1 =
      (WhatsAppHandler.Ok false, clients1).
Proof.
  intros d a r d' a' r' sessionId clients.
  unfold WhatsAppHandler.destroySession at 1.
  destruct (clients !! sessionId) as [c|] eqn:Hc.
  - destruct d; [rewrite cleanupSession_resolves|]; cbn;
      (split; [eexists; reflexivity|]);
      (assert (Hd : (delete sessionId clients : WhatsAppHandler.Clients) !! sessionId = None)
         by apply lookup_delete_eq);
      try (assert (Hdd : (delete sessionId (delete sessionId clients)
                           : WhatsAppHandler.Clients) !! sessionId = None)
             by apply lookup_delete_eq);
      [ split; [exact Hd|]; unfold WhatsAppHandler.destroySession; by rewrite Hd
      | split; [exact Hd|]; unfold WhatsAppHandler.destroySession; by rewrite Hd ].
  - split; [eexists; reflexivity|]. split; [exact Hc|].
    unfold WhatsAppHandler.destroySession. by rewrite Hc.
Qed.

(** C6 (counterexample): destroying a registered session twice, the
    second call resolves to [false], not to success. *)
Lemma destroySession_twice_not_success :
  let clients : WhatsAppHandler.Clients :=
    <[lit "s1" := WhatsAppHandler.mkClient (lit "s1")]> ∅ in
  let '(r1, clients1) := WhatsAppHandler.destroySession true true true (lit "s1") clients in
  r1 = WhatsAppHandler.Ok true /\
  fst (WhatsAppHandler.destroySession true true true (lit "s1") clients1) =
    WhatsAppHandler.Ok false.
Proof. vm_compute. split; reflexivity. Qed.

(* ------------------------------------------------------------------ *)
(** ** Inbound pipeline *)

(** C7: a message whose sender contains [@g.us] leaves the whole
    session state (ready flag, sent counter, active chats, AI history and
    rate-limit maps, adapter and timers) unchanged and sends nothing. *)
Theorem group_message_dropped :
  forall (w : SessionManager.World) (m : SessionManager.Message) (s : SessionManager.SM),
    includes (SessionManager.from m) (lit "@g.us") = true ->
    SessionManager.handleIncomingMessage w m s = (s, []).
Proof.
  intros w m s Hg. unfold SessionManager.handleIncomingMessage.
  destruct (negb (SessionManager.isReady s) || SessionManager.fromMe m); [reflexivity|].
  by rewrite Hg.
Qed.

Lemma group_message_dropped_witness :
  let m := SessionManager.mkMessage (lit "120363@g.us") false 1000 (lit "hello") in
  let w := SessionManager.mkWorld 1000000
             (Some (SessionManager.mkContact (lit "919876543210") (lit "A")))
             None (Some (lit "hi")) 0 SessionManager.Delivered in
  includes (SessionManager.from m) (lit "@g.us") = true /\
  SessionManager.handleIncomingMessage w m ready_session = (ready_session, []).
Proof.
  split; [vm_compute; reflexivity|].
  apply group_message_dropped. vm_compute. reflexivity.
Defined.

(* ------------------------------------------------------------------ *)
(** ** Phone-number formatting *)

Lemma includes_digits_no_suffix (d : jsstr) :
  Forall (fun x => AIReply.is_digit x = true) d -> includes d (lit "@c.us") = false.
Proof.
  induction 1 as [|x d Hx _ IH]; [reflexivity|].
  cbn [includes]. rewrite IH, orb_false_r.
  unfold AIReply.is_digit, AIReply.in_range in Hx.
  apply andb_true_iff in Hx as [H1 H2]. apply Z.leb_le in H1, H2.
  cbn [lit startsWith nat_of_ascii]. 
  destruct (Z.eqb_spec (Z.of_nat (nat_of_ascii "@"%char)) x); [|reflexivity].
  cbv in e. lia.
Qed.

Lemma filter_digits_forall (s : jsstr) :
  Forall (fun x => AIReply.is_digit x = true) (filter AIReply.is_digit s).
Proof.
  induction s as [|c s IH]; [constructor|]. cbn.
  destruct (AIReply.is_digit c) eqn:Hc; [constructor|]; assumption.
Qed.

(** C10: [formatPhoneNumber] keeps the decimal digits, prepends [91]
    exactly when they are 10 and do not start with [91], and always
    appends [@c.us]; every target [sendMessage] hands to the adapter is
    a digit string followed by [@c.us]. *)
Theorem formatPhoneNumber_shape :
  forall (number : jsstr),
    let digits := filter AIReply.is_digit number in
    WhatsAppHandler.formatPhoneNumber number =
      (if negb (startsWith digits (lit "91")) && Nat.eqb (length digits) 10
       then lit "91" ++ digits else digits) ++ lit "@c.us" /\
    forall (typing : bool) (sessionId message : jsstr) (clients : WhatsAppHandler.Clients),
      match WhatsAppHandler.sendMessage typing sessionId number message clients with
      | WhatsAppHandler.Ok calls =>
          Forall (fun c => exists d, WhatsAppHandler.call_target c = d ++ lit "@c.us" /\
                                     Forall (fun x => AIReply.is_digit x = true) d) calls
      | WhatsAppHandler.Throw _ => True
      end.
Proof.
  intros number digits.
  assert (Hshape : WhatsAppHandler.formatPhoneNumber number =
      (if negb (startsWith digits (lit "91")) && Nat.eqb (length digits) 10
       then lit "91" ++ digits else digits) ++ lit "@c.us").
  { unfold WhatsAppHandler.formatPhoneNumber. fold digits.
    assert (Hd := filter_digits_forall number). fold digits in Hd.
    destruct (negb (startsWith digits (lit "91")) && Nat.eqb (length digits) 10).
    - rewrite includes_digits_no_suffix; [reflexivity|].
      repeat constructor; [vm_compute; reflexivity..|exact Hd].
    - rewrite includes_digits_no_suffix; [reflexivity|exact Hd]. }
  split; [exact Hshape|].
  intros typing sessionId message clients.
  unfold WhatsAppHandler.sendMessage.
  destruct (clients !! sessionId); [|exact I].
  rewrite Hshape.
  assert (Hd := filter_digits_forall number). fold digits in Hd.
  assert (Hpre : Forall (fun x => AIReply.is_digit x = true)
    (if negb (startsWith digits (lit "91")) && Nat.eqb (length digits) 10
     then lit "91" ++ digits else digits)).
  { destruct (_ && _); [repeat constructor; [vm_compute; reflexivity..|exact Hd]|exact Hd]. }
  apply Forall_app; split.
  - destruct typing; repeat constructor. eexists; split; [reflexivity|exact Hpre].
  - repeat constructor. eexists; split; [reflexivity|exact Hpre].
Qed.

(* ------------------------------------------------------------------ *)
(** ** Typing delay *)

Lemma base_between (a b r : Q) :
  (0 <= r)%Q -> (r <= 1)%Q -> (Qmin a b <= a + r * (b - a) <= Qmax a b)%Q.
Proof.
  intros H0 H1.
  pose proof (Q.le_min_l a b). pose proof (Q.le_min_r a b).
  pose proof (Q.le_max_l a b). pose proof (Q.le_max_r a b).
  destruct (Qlt_le_dec b a) as [Hba|Hab].
  - assert (r * (a - b) <= 1 * (a - b))%Q by (apply Qmult_le_compat_r; lra).
    assert (0 <= r * (a - b))%Q by (apply Qmult_le_0_compat; lra).
    assert (r * (b - a) == - (r * (a - b)))%Q as E by ring.
    rewrite E. lra.
  - assert (r * (b - a) <= 1 * (b - a))%Q by (apply Qmult_le_compat_r; lra).
    assert (0 <= r * (b - a))%Q by (apply Qmult_le_0_compat; lra).
    lra.
Qed.

Lemma inject_Z_sub (x y : Z) : inject_Z (x - y) = (inject_Z x - inject_Z y)%Q.
Proof. unfold Z.sub, Qminus. by rewrite inject_Z_plus, inject_Z_opp. Qed.

(** C4: the delay is [min(baseDelay + length * 30, typingDelayMax)]
    with [baseDelay = min + Math.random() * (max - min)] between the
    configured bounds; with [min = 1000], [max = 3000] and a reply of
    100 code units it is exactly 3000 for every random draw. *)
Theorem typingDelay_capped :
  forall (env_min env_max : option Z) (rnd : Q) (reply : jsstr),
    (0 <= rnd < 1)%Q ->
    let typingDelayMin := parseInt_or env_min 1000 in
    let typingDelayMax := parseInt_or env_max 3000 in
    let baseDelay := (inject_Z typingDelayMin +
                      rnd * inject_Z (typingDelayMax - typingDelayMin))%Q in
    SessionManager.typingDelay env_min env_max rnd reply =
      Qmin (baseDelay + inject_Z (Z.of_nat (length reply) * 30))%Q
           (inject_Z typingDelayMax) /\
    (Qmin (inject_Z typingDelayMin) (inject_Z typingDelayMax) <= baseDelay <=
     Qmax (inject_Z typingDelayMin) (inject_Z typingDelayMax))%Q /\
    (length reply = 100%nat ->
     SessionManager.typingDelay (Some 1000) (Some 3000) rnd reply = inject_Z 3000).
Proof.
  intros env_min env_max rnd reply [H0 H1] tmin tmax base.
  split; [reflexivity|]. split.
  - unfold base. rewrite inject_Z_sub. apply base_between; lra.
  - intros Hlen. unfold SessionManager.typingDelay. rewrite Hlen.
    cbn [parseInt_or Z.eqb Pos.eqb].
    set (x := (inject_Z 1000 + rnd * inject_Z (3000 - 1000) +
               inject_Z (Z.of_nat 100 * 30))%Q).
    assert (Hx : (inject_Z 3000 < x)%Q).
    { unfold x. assert (0 <= rnd * inject_Z (3000 - 1000))%Q.
      { apply Qmult_le_0_compat; [exact H0|]. unfold Qle; cbn; lia. }
      change (inject_Z (Z.of_nat 100 * 30)) with (inject_Z 3000).
      assert (inject_Z 1000 == 1000 # 1)%Q by reflexivity.
      assert (inject_Z 3000 == 3000 # 1)%Q by reflexivity.
      lra. }
    unfold Qmin, GenericMinMax.gmin. apply Qgt_alt in Hx. by rewrite Hx.
Qed.

Lemma typingDelay_capped_witness :
  (0 <= 1 # 2 < 1)%Q /\
  SessionManager.typingDelay (Some 1000) (Some 3000) (1 # 2) (repeat 97 100) = inject_Z 3000.
Proof.
  split; [split; unfold Qle, Qlt; cbn; lia|].
  apply (typingDelay_capped (Some 1000) (Some 3000) (1 # 2) (repeat 97 100)).
  - split; unfold Qle, Qlt; cbn; lia.
  - reflexivity.
Defined.

(* ------------------------------------------------------------------ *)
(** ** Stop and disconnect *)

(** C9 (amended): [stopClient] schedules no restart and, when an adapter
    handle is present, clears [isReady] and drops the handle once
    [client.destroy()] resolves; every adapter [disconnected] event
    clears [isReady] and schedules a restart 5000 ms later, with no
    check for an earlier stop; a stop keeps already scheduled restarts. *)
Theorem stop_and_disconnect_schedule :
  forall (s : SessionManager.SM) (destroy_ok : bool) (now : Z),
    SessionManager.restartTimers (SessionManager.step s (SessionManager.EvStop destroy_ok)) =
      SessionManager.restartTimers s /\
    match SessionManager.client s with
    | Some h =>
        SessionManager.isReady (SessionManager.step s (SessionManager.EvStop destroy_ok)) = false /\
        SessionManager.client (SessionManager.step s (SessionManager.EvStop destroy_ok)) =
          (if destroy_ok then None else Some h)
    | None => SessionManager.step s (SessionManager.EvStop destroy_ok) = s
    end /\
    SessionManager.restartTimers (SessionManager.step s (SessionManager.EvDisconnected now)) =
      SessionManager.restartTimers s ++ [now + 5000] /\
    SessionManager.isReady (SessionManager.step s (SessionManager.EvDisconnected now)) = false.
Proof.
  intros s destroy_ok now. cbn [SessionManager.step].
  destruct (SessionManager.client s) as [h|]; cbn; auto.
Qed.

(** C9 (counterexample): after an explicit stop, a restart already
    scheduled by an earlier disconnect still runs and recreates the
    adapter, and a disconnect reported after the stop schedules one. *)
Lemma stop_does_not_prevent_restart :
  SessionManager.client
    (SessionManager.run ready_session
       [SessionManager.EvDisconnected 0; SessionManager.EvStop true;
        SessionManager.EvRestartTimer true 2]) = Some 2 /\
  SessionManager.restartTimers
    (SessionManager.run ready_session
       [SessionManager.EvStop true; SessionManager.EvDisconnected 10]) = [5010].
Proof. split; reflexivity. Qed.

(* ------------------------------------------------------------------ *)
(** ** Conversation history *)

Section HistoryBound.

Context {A : Type}.

Lemma map_Forall_filter_bound (P : jsstr * list A -> bool)
    (m : gmap jsstr (list A)) :
  map_Forall (fun _ l => (length l <= 10)%nat) m ->
  map_Forall (fun _ l => (length l <= 10)%nat) (filter (fun kv => P kv = true) m).
Proof.
  intros Hm k l Hl. apply map_lookup_filter_Some in Hl as [Hl _]. exact (Hm k l Hl).
Qed.

Lemma lookup_default_bound (m : gmap jsstr (list A)) (k : jsstr) :
  map_Forall (fun _ l => (length l <= 10)%nat) m ->
  (length (default [] (m !! k)) <= 10)%nat.
Proof.
  intros Hm. destruct (m !! k) as [l|] eqn:E; cbn; [exact (Hm k l E)|lia].
Qed.

End HistoryBound.

Lemma update_bounded (h : AIReply.History) k u r l now :
  AIReply.history_bounded h ->
  AIReply.history_bounded (AIReply.updateConversationHistory h k u r l now).
Proof.
  intros Hh. unfold AIReply.updateConversationHistory.
  apply map_Forall_insert_2; [|exact Hh].
  pose proof (lookup_default_bound h k Hh) as Hk.
  unfold AIReply.getConversationHistory.
  set (old := default [] (h !! k)) in *.
  destruct (Nat.ltb_spec 10 (length (old ++ [AIReply.mkTurn u r l now]))) as [Hlt|Hge].
  - assert (Hl : length (old ++ [AIReply.mkTurn u r l now]) = S (length old))
      by (rewrite length_app; cbn; lia).
    destruct (old ++ _) as [|x rest]; cbn in *; lia.
  - exact Hge.
Qed.

Lemma generateReply_history (env_limit : option Z) now message fromNumber api
    (st : AIReply.AIState) :
  AIReply.conversationHistory
    (snd (AIReply.generateReply env_limit now message fromNumber api st)) =
    AIReply.conversationHistory st \/
  exists r l,
    AIReply.conversationHistory
      (snd (AIReply.generateReply env_limit now message fromNumber api st)) =
    AIReply.updateConversationHistory (AIReply.conversationHistory st)
      fromNumber message r l now.
Proof.
  unfold AIReply.generateReply.
  destruct (AIReply.checkRateLimit env_limit now fromNumber (AIReply.rateLimits st))
    as [allowed rl].
  destruct allowed; cbn; [|left; reflexivity].
  destruct api as [t|]; cbn; [|left; reflexivity].
  destruct (negb (Nat.eqb (length t) 0)); cbn; [right; eauto|left; reflexivity].
Qed.

Lemma ai_step_bounded (st : AIReply.AIState) op :
  AIReply.history_bounded (AIReply.conversationHistory st) ->
  AIReply.history_bounded (AIReply.conversationHistory (AIReply.apply_any st op)).
Proof.
  intros Hh. destruct op as [[[[[env now] m] k] api]|op]; cbn.
  - destruct (generateReply_history env now m k api st) as [E|(r & l & E)];
      rewrite E; [exact Hh|apply update_bounded, Hh].
  - destruct op; cbn.
    + apply update_bounded, Hh.
    + apply map_Forall_delete, Hh.
    + apply map_Forall_filter_bound, Hh.
    + apply map_Forall_empty.
Qed.

Lemma gemini_update_bounded (h : GeminiAI.ChatHistory) c u b now :
  GeminiAI.history_bounded h ->
  GeminiAI.history_bounded (GeminiAI.updateChatHistory h c u b now).
Proof.
  intros Hh. unfold GeminiAI.updateChatHistory.
  apply map_Forall_insert_2; [|exact Hh].
  pose proof (lookup_default_bound h c Hh) as Hk.
  unfold GeminiAI.getChatHistory.
  set (old := default [] (h !! c)) in *.
  set (new := old ++ _).
  destruct (Nat.ltb_spec 10 (length new)) as [Hlt|Hge].
  - unfold GeminiAI.slice_last10. rewrite length_drop. lia.
  - exact Hge.
Qed.

Lemma gemini_step_bounded (st : GeminiAI.GeminiState) op :
  GeminiAI.history_bounded (GeminiAI.chatHistory st) ->
  GeminiAI.history_bounded (GeminiAI.chatHistory (GeminiAI.apply_op st op)).
Proof.
  intros Hh. destruct op as [env now m c api pick|c|now]; cbn.
  - unfold GeminiAI.generateReply.
    destruct (negb (GeminiAI.canReply env now c (GeminiAI.lastReplyTime st))); [exact Hh|].
    destruct api; cbn; [apply gemini_update_bounded, Hh|exact Hh].
  - apply map_Forall_delete, Hh.
  - apply map_Forall_filter_bound, Hh.
Qed.

Lemma gemini_update_full (gh : GeminiAI.ChatHistory) (c u b : jsstr) (now : Z) :
  length (GeminiAI.getChatHistory gh c) = 10%nat ->
  GeminiAI.getChatHistory (GeminiAI.updateChatHistory gh c u b now) c =
    drop 2 (GeminiAI.getChatHistory gh c) ++
    [GeminiAI.mkEntry GeminiAI.User u now; GeminiAI.mkEntry GeminiAI.Bot b now].
Proof.
  intros Hfull.
  unfold GeminiAI.updateChatHistory, GeminiAI.getChatHistory at 1.
  rewrite lookup_insert_eq. cbn [default].
  rewrite length_app, Hfull. cbn.
  unfold GeminiAI.slice_last10. rewrite length_app, Hfull. cbn.
  apply drop_app_le. lia.
Qed.

(** C2: starting from a fresh instance, every sequence of
    history-mutating operations of [AIReply] (whole [generateReply]
    runs, recorded exchanges, [/clear], the hourly sweep, [shutdown]) and
    of [GeminiAI] ([generateReply], [clearChatHistory], [cleanup]) keeps
    each contact's history at most 10 entries long.  Recording an
    exchange on a full AIReply history (one turn per exchange) drops
    exactly its oldest turn and keeps the other 10 in order; recording an
    exchange on a full GeminiAI history (two entries per exchange, user
    then bot) drops its two oldest entries and keeps the other 8 in
    order. *)
Theorem conversation_history_capped_fifo :
  forall (ops : list ((option Z * Z * jsstr * jsstr * option jsstr) + AIReply.HistoryOp))
         (gops : list GeminiAI.HistoryOp)
         (h : AIReply.History) (k u r : jsstr) (l : AIReply.Lang) (now : Z)
         (gh : GeminiAI.ChatHistory) (c gu gb : jsstr) (gnow : Z),
    length (AIReply.getConversationHistory h k) = 10%nat ->
    length (GeminiAI.getChatHistory gh c) = 10%nat ->
    AIReply.history_bounded
      (AIReply.conversationHistory (fold_left AIReply.apply_any ops AIReply.initial)) /\
    GeminiAI.history_bounded
      (GeminiAI.chatHistory (fold_left GeminiAI.apply_op gops GeminiAI.initial)) /\
    AIReply.getConversationHistory (AIReply.updateConversationHistory h k u r l now) k =
      tail (AIReply.getConversationHistory h k) ++ [AIReply.mkTurn u r l now] /\
    GeminiAI.getChatHistory (GeminiAI.updateChatHistory gh c gu gb gnow) c =
      drop 2 (GeminiAI.getChatHistory gh c) ++
      [GeminiAI.mkEntry GeminiAI.User gu gnow; GeminiAI.mkEntry GeminiAI.Bot gb gnow].
Proof.
  intros ops gops h k u r l now gh c gu gb gnow Hfull Hgfull. split; [|split; [|split]].
  - assert (Hinit : AIReply.history_bounded (AIReply.conversationHistory AIReply.initial))
      by apply map_Forall_empty.
    revert Hinit. generalize AIReply.initial as st.
    induction ops as [|op ops IH]; intros st Hst; [exact Hst|].
    apply IH, ai_step_bounded, Hst.
  - assert (Hinit : GeminiAI.history_bounded (GeminiAI.chatHistory GeminiAI.initial))
      by apply map_Forall_empty.
    revert Hinit. generalize GeminiAI.initial as st.
    induction gops as [|op gops IH]; intros st Hst; [exact Hst|].
    apply IH, gemini_step_bounded, Hst.
  - unfold AIReply.updateConversationHistory, AIReply.getConversationHistory at 1.
    rewrite lookup_insert_eq. cbn [default].
    destruct (AIReply.getConversationHistory h k) as [|t0 rest] eqn:E;
      [discriminate|].
    rewrite length_app, Hfull. reflexivity.
  - by apply gemini_update_full.
Qed.

Lemma conversation_history_capped_fifo_witness :
  let k := lit "919876543210" in
  let t := AIReply.mkTurn (lit "hi") (lit "hello") AIReply.english 0 in
  let h : AIReply.History := <[k := repeat t 10]> ∅ in
  let gh : GeminiAI.ChatHistory :=
    <[k := concat (repeat [GeminiAI.mkEntry GeminiAI.User (lit "hi") 0;
                           GeminiAI.mkEntry GeminiAI.Bot (lit "hello") 0] 5)]> ∅ in
  length (AIReply.getConversationHistory h k) = 10%nat /\
  length (GeminiAI.getChatHistory gh k) = 10%nat /\
  AIReply.getConversationHistory
    (AIReply.updateConversationHistory h k (lit "q") (lit "a") AIReply.english 5) k =
    tail (AIReply.getConversationHistory h k) ++
      [AIReply.mkTurn (lit "q") (lit "a") AIReply.english 5] /\
  GeminiAI.getChatHistory (GeminiAI.updateChatHistory gh k (lit "q") (lit "a") 5) k =
    drop 2 (GeminiAI.getChatHistory gh k) ++
      [GeminiAI.mkEntry GeminiAI.User (lit "q") 5; GeminiAI.mkEntry GeminiAI.Bot (lit "a") 5].
Proof.
  cbv zeta. split; [reflexivity|]. split; [reflexivity|].
  apply (conversation_history_capped_fifo [] [] _ _ _ _ _ _ _ _ _ _ _);
    reflexivity.
Defined.

(** C2 (counterexample): a GeminiAI history holding five exchanges is
    full; recording a sixth exchange evicts both entries of the oldest
    exchange, not only the oldest entry: the first bot entry is gone and
    the history still holds 10 entries. *)
Lemma gemini_exchange_evicts_two_entries :
  let k := lit "919876543210" in
  let ex (i : Z) := [GeminiAI.mkEntry GeminiAI.User (lit "hi") i;
                     GeminiAI.mkEntry GeminiAI.Bot (lit "hello") i] in
  let old := ex 1 ++ ex 2 ++ ex 3 ++ ex 4 ++ ex 5 in
  let gh : GeminiAI.ChatHistory := <[k := old]> ∅ in
  let r := GeminiAI.getChatHistory (GeminiAI.updateChatHistory gh k (lit "q") (lit "a") 6) k in
  length old = 10%nat /\
  length r = 10%nat /\
  ~ In (GeminiAI.mkEntry GeminiAI.Bot (lit "hello") 1) r /\
  r <> tail old ++ [GeminiAI.mkEntry GeminiAI.User (lit "q") 6].
Proof.
  cbv zeta. split; [reflexivity|]. split; [vm_compute; reflexivity|]. split.
  - vm_compute. intros H. repeat (destruct H as [H|H]; [discriminate H|]). exact H.
  - vm_compute. discriminate.
Qed.

(* ------------------------------------------------------------------ *)
(** ** Failed completion calls *)

Lemma ai_generateReply_failed (env_limit : option Z) now message fromNumber api st :
  (api = None \/ api = Some []) ->
  let '(r, st') := AIReply.generateReply env_limit now message fromNumber api st in
  AIReply.conversationHistory st' = AIReply.conversationHistory st /\
  (r = None \/ r = Some (AIReply.getFallbackReply (AIReply.detectLanguage message))).
Proof.
  intros Happ. unfold AIReply.generateReply.
  destruct (AIReply.checkRateLimit env_limit now fromNumber (AIReply.rateLimits st))
    as [allowed rl].
  destruct allowed; cbn; [|auto].
  destruct Happ as [-> | ->]; cbn; auto.
Qed.

(** C3 (amended): when the completion call fails ([callGeminiAPI]
    resolves to [null] or to an empty text), [AIReply.generateReply]
    does not reject: it returns nothing (rate limited) or the fallback
    of the detected category; when [generateContent] rejects,
    [GeminiAI.generateReply] returns nothing (rate limited) or one of
    its fixed fallback replies, picked at random.  In both the contact's
    conversation history is left unchanged: the fallback is not
    recorded. *)
Theorem failed_completion_fallback_not_recorded :
  forall (env_limit : option Z) (now : Z) (message fromNumber : jsstr)
         (st : AIReply.AIState)
         (env_max : option Z) (gnow : Z) (messageText contactNumber : jsstr)
         (pick : nat) (gst : GeminiAI.GeminiState),
    (pick < 5)%nat ->
    (let '(r, st') := AIReply.generateReply env_limit now message fromNumber None st in
     AIReply.conversationHistory st' = AIReply.conversationHistory st /\
     (r = None \/ r = Some (AIReply.getFallbackReply (AIReply.detectLanguage message)))) /\
    (let '(r, st') := AIReply.generateReply env_limit now message fromNumber (Some []) st in
     AIReply.conversationHistory st' = AIReply.conversationHistory st /\
     (r = None \/ r = Some (AIReply.getFallbackReply (AIReply.detectLanguage message)))) /\
    (let '(r, gst') :=
       GeminiAI.generateReply env_max gnow messageText contactNumber None pick gst in
     GeminiAI.chatHistory gst' = GeminiAI.chatHistory gst /\
     (r = None \/ exists f, r = Some f /\ In f GeminiAI.fallbackReplies)).
Proof.
  intros env_limit now message fromNumber st env_max gnow messageText contactNumber
         pick gst Hpick.
  split; [apply ai_generateReply_failed; auto|].
  split; [apply ai_generateReply_failed; auto|].
  unfold GeminiAI.generateReply.
  destruct (negb (GeminiAI.canReply env_max gnow contactNumber (GeminiAI.lastReplyTime gst)));
    cbv beta iota zeta; [auto|].
  split; [reflexivity|]. right. eexists; split; [reflexivity|].
  unfold GeminiAI.getFallbackReply. apply nth_In. exact Hpick.
Qed.

Lemma failed_completion_fallback_not_recorded_witness :
  (3 < 5)%nat /\
  (let '(r, gst') :=
     GeminiAI.generateReply None 100000 (lit "hello") (lit "919876543210") None 3
       GeminiAI.initial in
   GeminiAI.chatHistory gst' = GeminiAI.chatHistory GeminiAI.initial /\
   (r = None \/ exists f, r = Some f /\ In f GeminiAI.fallbackReplies)).
Proof.
  split; [lia|].
  apply (failed_completion_fallback_not_recorded None 0 (lit "hello") (lit "919876543210")
           AIReply.initial None 100000 (lit "hello") (lit "919876543210") 3
           GeminiAI.initial).
  lia.
Defined.

(** C3 (counterexample): a failed completion call for a fresh contact
    yields a fallback from [GeminiAI] but leaves its history empty, and
    [AIReply] gives no reply at all (its rate limiter denies). *)
Lemma failed_completion_not_recorded :
  let c := lit "919876543210" in
  (let '(r, gst') := GeminiAI.generateReply None 100000 (lit "hello") c None 0
                        GeminiAI.initial in
   r = Some (GeminiAI.getFallbackReply 0) /\
   GeminiAI.getChatHistory (GeminiAI.chatHistory gst') c = []) /\
  (let '(r, st') := AIReply.generateReply None 100000 (lit "hello") c None AIReply.initial in
   r = None /\ AIReply.getConversationHistory (AIReply.conversationHistory st') c = []).
Proof. vm_compute. split; split; reflexivity. Qed.

(* ------------------------------------------------------------------ *)
(** ** Language detection *)

Lemma regex_search_app (m : jsstr -> bool) (pre u : jsstr) :
  m u = true -> AIReply.regex_search m (pre ++ u) = true.
Proof.
  intros Hm. induction pre as [|c pre IH]; cbn.
  - destruct u; cbn in *; rewrite Hm; reflexivity.
  - rewrite IH. apply orb_true_r.
Qed.

Lemma lookahead_within_line (P : Z -> bool) (mid post : jsstr) :
  forallb (fun c => negb (is_line_terminator c)) mid = true ->
  existsb P mid = true ->
  AIReply.lookahead_dot_star (AIReply.char_at P) (mid ++ post) = true.
Proof.
  induction mid as [|c mid IH]; cbn; [discriminate|].
  intros Hnl Hex. apply andb_true_iff in Hnl as [Hc Hnl].
  destruct (P c) eqn:Pc; [reflexivity|]. cbn in Hex.
  rewrite Hc. cbn. apply IH; assumption.
Qed.

(** C8 (amended): [AIReply.detectLanguage] tests the mixing pattern
    first, so it returns ['hinglish'] whenever its cleaned text (URLs and
    digit runs removed, trimmed) has an ASCII letter and a Devanagari
    code unit on one line; [GeminiAI.detectLanguage] returns ['hinglish']
    whenever the text has an ASCII letter and a Devanagari code unit;
    both fall back to ['hinglish'] when no pattern matches.  Other pairs
    of scripts are not treated as mixing: ["ok அ"] is ['tamil'] for
    [AIReply] and ['english'] for [GeminiAI]. *)
Theorem detectLanguage_mixed_first :
  forall (text pre mid post gtext : jsstr),
    AIReply.cleanText text = pre ++ mid ++ post ->
    forallb (fun c => negb (is_line_terminator c)) mid = true ->
    existsb AIReply.is_latin mid = true ->
    existsb AIReply.is_devanagari mid = true ->
    existsb AIReply.is_latin gtext && existsb AIReply.is_devanagari gtext = true ->
    AIReply.detectLanguage text = AIReply.hinglish /\
    GeminiAI.detectLanguage gtext = AIReply.hinglish /\
    (forall t : jsstr,
       let c := AIReply.cleanText t in
       AIReply.regex_search AIReply.hinglish_at c = false ->
       existsb AIReply.is_devanagari c = false -> existsb AIReply.is_arabic c = false ->
       existsb AIReply.is_bengali c = false -> existsb AIReply.is_tamil c = false ->
       existsb AIReply.is_gujarati c = false -> AIReply.english_test c = false ->
       AIReply.detectLanguage t = AIReply.hinglish) /\
    (forall t : jsstr,
       existsb AIReply.is_devanagari t = false -> existsb AIReply.is_latin t = false ->
       GeminiAI.detectLanguage t = AIReply.hinglish) /\
    AIReply.detectLanguage (lit "ok " ++ [2949]) = AIReply.tamil /\
    GeminiAI.detectLanguage (lit "ok " ++ [2949]) = AIReply.english.
Proof.
  intros text pre mid post gtext Hc Hnl Hlat Hdev Hg.
  split; [|split; [|split; [|split; [|split]]]].
  - unfold AIReply.detectLanguage. cbv zeta. rewrite Hc.
    rewrite (regex_search_app _ pre (mid ++ post)); [reflexivity|].
    unfold AIReply.hinglish_at.
    rewrite !lookahead_within_line by assumption. reflexivity.
  - unfold GeminiAI.detectLanguage. cbv zeta. rewrite andb_comm in Hg. by rewrite Hg.
  - intros t c H1 H2 H3 H4 H5 H6 H7. unfold AIReply.detectLanguage. cbv zeta.
    fold c. by rewrite H1, H2, H3, H4, H5, H6, H7.
  - intros t H1 H2. unfold GeminiAI.detectLanguage. cbv zeta.
    by rewrite H1, H2.
  - vm_compute. reflexivity.
  - vm_compute. reflexivity.
Qed.

Lemma detectLanguage_mixed_first_witness :
  let text := lit "kya hal " ++ [2344; 2350] in
  AIReply.cleanText text = [] ++ text ++ [] /\
  AIReply.detectLanguage text = AIReply.hinglish /\
  GeminiAI.detectLanguage text = AIReply.hinglish.
Proof.
  cbv zeta. split; [vm_compute; reflexivity|].
  refine (let H := detectLanguage_mixed_first
             (lit "kya hal " ++ [2344; 2350]) [] (lit "kya hal " ++ [2344; 2350]) []
             (lit "kya hal " ++ [2344; 2350]) _ _ _ _ _ in
          conj (proj1 H) (proj1 (proj2 H))); vm_compute; reflexivity.
Defined.

(** C8 (counterexample): texts mixing two scripts classified as a single
    script: Latin with Tamil, and Latin with Devanagari on two lines. *)
Lemma mixed_scripts_classified_monolingual :
  AIReply.detectLanguage (lit "ok " ++ [2949]) = AIReply.tamil /\
  GeminiAI.detectLanguage (lit "ok " ++ [2949]) = AIReply.english /\
  AIReply.detectLanguage (lit "hello" ++ [10; 2344]) = AIReply.hindi.
Proof. vm_compute. repeat split. Qed.

(* ================================================================== *)
(** * Further properties of the code *)

(* ------------------------------------------------------------------ *)
(** ** WhatsAppHandler: numbers *)

Lemma startsWith_app_self (p s : jsstr) : startsWith (p ++ s) p = true.
Proof. induction p as [|c p IH]; cbn; [by destruct s|]. by rewrite Z.eqb_refl, IH. Qed.

Lemma includes_app_self (x p : jsstr) : includes (x ++ p) p = true.
Proof.
  induction x as [|c x IH]; cbn [app includes].
  - assert (H := startsWith_app_self p []). rewrite app_nil_r in H.
    destruct p; cbn [includes]; rewrite H; reflexivity.
  - rewrite IH. apply orb_true_r.
Qed.

Lemma format_prefix (number : jsstr) :
  let digits := filter AIReply.is_digit number in
  let pre := if negb (startsWith digits (lit "91")) && Nat.eqb (length digits) 10
             then lit "91" ++ digits else digits in
  WhatsAppHandler.formatPhoneNumber number = pre ++ lit "@c.us" /\
  Forall (fun x => AIReply.is_digit x = true) pre.
Proof.
  intros digits pre.
  assert (Hd := filter_digits_forall number). fold digits in Hd.
  assert (Hpre : Forall (fun x => AIReply.is_digit x = true) pre).
  { subst pre. destruct (_ && _); [repeat constructor; [vm_compute; reflexivity..|exact Hd]|exact Hd]. }
  split; [|exact Hpre].
  unfold WhatsAppHandler.formatPhoneNumber. fold digits. fold pre.
  by rewrite includes_digits_no_suffix.
Qed.

Lemma filter_digits_suffix (d : jsstr) :
  Forall (fun x => AIReply.is_digit x = true) d ->
  filter AIReply.is_digit (d ++ lit "@c.us") = d.
Proof.
  induction 1 as [|x d Hx _ IH]; [reflexivity|].
  cbn [app]. rewrite filter_cons_True by (rewrite Hx; exact I). by rewrite IH.
Qed.

Lemma replace_first_suffix (d : jsstr) :
  Forall (fun x => AIReply.is_digit x = true) d ->
  WhatsAppHandler.replace_first (d ++ lit "@c.us") (lit "@c.us") [] = d.
Proof.
  induction 1 as [|x d Hx _ IH]; [reflexivity|].
  cbn [app WhatsAppHandler.replace_first]. rewrite IH.
  unfold AIReply.is_digit, AIReply.in_range in Hx.
  apply andb_true_iff in Hx as [H1 H2]. apply Z.leb_le in H1, H2.
  cbn [lit startsWith nat_of_ascii].
  destruct (Z.eqb_spec (Z.of_nat (nat_of_ascii "@"%char)) x); [|reflexivity].
  cbv in e. lia.
Qed.

(** X1: [formatPhoneNumber] is idempotent: formatting an already
    formatted number returns it unchanged. *)
Theorem formatPhoneNumber_idempotent :
  forall number : jsstr,
    WhatsAppHandler.formatPhoneNumber (WhatsAppHandler.formatPhoneNumber number) =
    WhatsAppHandler.formatPhoneNumber number.
Proof.
  intros number.
  destruct (format_prefix number) as [Hf Hpre]. rewrite Hf.
  set (digits := filter AIReply.is_digit number) in *.
  set (pre := if negb (startsWith digits (lit "91")) && Nat.eqb (length digits) 10
              then lit "91" ++ digits else digits) in *.
  unfold WhatsAppHandler.formatPhoneNumber at 1.
  rewrite (filter_digits_suffix pre Hpre).
  assert (Hc : negb (startsWith pre (lit "91")) && Nat.eqb (length pre) 10 = false).
  { subst pre. destruct (negb (startsWith digits (lit "91")) && Nat.eqb (length digits) 10) eqn:E.
    - by rewrite startsWith_app_self.
    - exact E. }
  rewrite Hc. by rewrite includes_digits_no_suffix.
Qed.

(** X2: [extractPhoneFromMessage] undoes [formatPhoneNumber]: for a
    sender id built by [formatPhoneNumber number] it returns the digits of
    [number], with [91] prefixed when they are 10 and do not start with
    [91]. *)
Theorem extractPhone_of_formatted :
  forall number : jsstr,
    let digits := filter AIReply.is_digit number in
    WhatsAppHandler.extractPhoneFromMessage (Some (WhatsAppHandler.formatPhoneNumber number)) =
    Some (if negb (startsWith digits (lit "91")) && Nat.eqb (length digits) 10
          then lit "91" ++ digits else digits).
Proof.
  intros number digits.
  destruct (format_prefix number) as [Hf Hpre]. rewrite Hf.
  unfold WhatsAppHandler.extractPhoneFromMessage.
  rewrite length_app. cbn [lit length nat_of_ascii Z.of_nat].
  rewrite Nat.add_comm. cbn [Nat.eqb Nat.add].
  by rewrite replace_first_suffix.
Qed.

(** X3: [isValidWhatsAppNumber] accepts a number exactly when it has at
    least 8 decimal digits. *)
Theorem isValidWhatsAppNumber_digits :
  forall number : jsstr,
    WhatsAppHandler.isValidWhatsAppNumber number =
    Nat.leb 8 (length (filter AIReply.is_digit number)).
Proof.
  intros number. unfold WhatsAppHandler.isValidWhatsAppNumber.
  destruct (format_prefix number) as [Hf _]. rewrite Hf.
  rewrite includes_app_self, andb_true_l, length_app.
  set (digits := filter AIReply.is_digit number).
  destruct (negb (startsWith digits (lit "91")) && Nat.eqb (length digits) 10) eqn:E.
  - apply andb_true_iff in E as [_ E]. apply Nat.eqb_eq in E.
    rewrite length_app, E. reflexivity.
  - cbn [lit length nat_of_ascii].
    destruct (Nat.ltb_spec 12 (length digits + 5)); destruct (Nat.leb_spec 8 (length digits));
      reflexivity || lia.
Qed.

(* ------------------------------------------------------------------ *)
(** ** WhatsAppHandler: the session registry *)

Lemma destroySession_registry (d a r : bool) (k : jsstr) (cl : WhatsAppHandler.Clients) :
  snd (WhatsAppHandler.destroySession d a r k cl) = delete k cl.
Proof.
  unfold WhatsAppHandler.destroySession.
  destruct (cl !! k) eqn:E; cbn.
  - destruct d; cbn; [|reflexivity].
    by destruct a, r.
  - symmetry. by apply delete_id.
Qed.

Lemma size_delete_le {A} (k : jsstr) (m : gmap jsstr A) : (size (delete k m) <= size m)%nat.
Proof. rewrite map_size_delete. destruct (m !! k); cbn; lia. Qed.

Lemma createClient_size (env : option Z) (k : jsstr) (cl : WhatsAppHandler.Clients) (B : Z) :
  WhatsAppHandler.maxSessions env <= B -> Z.of_nat (size cl) <= B ->
  Z.of_nat (size (snd (WhatsAppHandler.createClient env k cl))) <= B.
Proof.
  intros HB Hcl. unfold WhatsAppHandler.createClient.
  destruct (cl !! k) eqn:E; cbn; [exact Hcl|].
  destruct (Z.leb_spec (WhatsAppHandler.maxSessions env) (Z.of_nat (size cl))); cbn;
    [exact Hcl|].
  rewrite map_size_insert_None by exact E. lia.
Qed.

Lemma fold_delete_lookup (ks : list jsstr) (m : WhatsAppHandler.Clients) (i : jsstr) :
  fold_left (fun cl k => delete k cl) ks m !! i = if decide (i ∈ ks) then None else m !! i.
Proof.
  revert m. induction ks as [|k ks IH]; intros m; cbn [fold_left].
  - destruct (decide (i ∈ [])) as [Hi|]; [inversion Hi|reflexivity].
  - rewrite IH. clear IH.
    destruct (decide (i ∈ k :: ks)) as [Hin|Hnin], (decide (i ∈ ks)) as [Hin'|Hnin'];
      try reflexivity.
    + apply elem_of_cons in Hin as [->|]; [|contradiction]. apply lookup_delete_eq.
    + exfalso. apply Hnin. by right.
    + apply lookup_delete_ne. intros ->. apply Hnin. by left.
Qed.

Lemma cleanupAll_deletes (outcome : jsstr -> bool * bool * bool) (ks : list jsstr)
    (m : WhatsAppHandler.Clients) :
  fold_left (fun cl sessionId =>
               let '(d, a, r) := outcome sessionId in
               snd (WhatsAppHandler.destroySession d a r sessionId cl)) ks m =
  fold_left (fun cl k => delete k cl) ks m.
Proof.
  revert m. induction ks as [|k ks IH]; intros m; cbn [fold_left]; [reflexivity|].
  rewrite <- IH. f_equal. destruct (outcome k) as [[d a] r].
  apply destroySession_registry.
Qed.

Lemma registry_step_size (env : option Z) (cl : WhatsAppHandler.Clients)
    (op : WhatsAppHandler.RegistryOp) (B : Z) :
  WhatsAppHandler.maxSessions env <= B -> Z.of_nat (size cl) <= B ->
  Z.of_nat (size (WhatsAppHandler.registry_step env cl op)) <= B.
Proof.
  intros HB Hcl. destruct op as [k|d a r k|d a r k|outcome|k|k]; cbn.
  - by apply createClient_size.
  - rewrite destroySession_registry. pose proof (size_delete_le k cl). lia.
  - unfold WhatsAppHandler.restartSession.
    pose proof (destroySession_registry d a r k cl) as Hd.
    destruct (WhatsAppHandler.destroySession d a r k cl) as [res cl'] eqn:E.
    cbn in Hd. subst cl'. apply createClient_size; [exact HB|].
    pose proof (size_delete_le k cl). lia.
  - unfold WhatsAppHandler.cleanupAllSessions. rewrite cleanupAll_deletes.
    assert (Hle : forall ks (m : WhatsAppHandler.Clients),
               (size (fold_left (fun cl k => delete k cl) ks m) <= size m)%nat).
    { induction ks as [|k ks IH]; intros m; cbn; [lia|].
      specialize (IH (delete k m)). pose proof (size_delete_le k m). lia. }
    specialize (Hle (map fst (map_to_list cl)) cl). lia.
  - pose proof (size_delete_le k cl). lia.
  - pose proof (size_delete_le k cl). lia.
Qed.

(** X4: whatever sequence of [createClient], [destroySession],
    [restartSession] and [cleanupAllSessions] calls and ['auth_failure']
    and ['disconnected'] events the registry goes through, it never holds
    more sessions than [maxSessions] or than it started with. *)
Theorem registry_never_exceeds_maxSessions :
  forall (env_max : option Z) (ops : list WhatsAppHandler.RegistryOp)
         (clients : WhatsAppHandler.Clients),
    Z.of_nat (size (fold_left (WhatsAppHandler.registry_step env_max) ops clients)) <=
    Z.max (WhatsAppHandler.maxSessions env_max) (Z.of_nat (size clients)).
Proof.
  intros env ops. 
  assert (H : forall cl B, WhatsAppHandler.maxSessions env <= B -> Z.of_nat (size cl) <= B ->
            Z.of_nat (size (fold_left (WhatsAppHandler.registry_step env) ops cl)) <= B).
  { induction ops as [|op ops IH]; intros cl B HB Hcl; cbn; [exact Hcl|].
    apply IH; [exact HB|]. by apply registry_step_size. }
  intros clients. apply H; lia.
Qed.

(** X5: restarting a registered session of a registry within its bound
    always resolves to a fresh client for that id, whether or not
    [client.destroy()] and the file clean-up succeed; the registry then
    maps the id to the new client and is otherwise unchanged. *)
Theorem restartSession_registered :
  forall (env_max : option Z) (destroy_ok access_ok rm_ok : bool) (sessionId : jsstr)
         (clients : WhatsAppHandler.Clients) (c : WhatsAppHandler.Client),
    clients !! sessionId = Some c ->
    Z.of_nat (size clients) <= WhatsAppHandler.maxSessions env_max ->
    WhatsAppHandler.restartSession env_max destroy_ok access_ok rm_ok sessionId clients =
    (WhatsAppHandler.Ok (WhatsAppHandler.mkClient sessionId),
     <[sessionId := WhatsAppHandler.mkClient sessionId]> (delete sessionId clients)).
Proof.
  intros env d a r k cl c Hc Hsz. unfold WhatsAppHandler.restartSession.
  pose proof (destroySession_registry d a r k cl) as Hd.
  destruct (WhatsAppHandler.destroySession d a r k cl) as [res cl'] eqn:E.
  cbn in Hd. subst cl'.
  unfold WhatsAppHandler.createClient. rewrite lookup_delete_eq.
  rewrite map_size_delete, Hc.
  assert (Hpos : (0 < size cl)%nat).
  { destruct (size cl) eqn:Z0; [|lia]. apply map_size_empty_iff in Z0. subst cl.
    rewrite lookup_empty in Hc. discriminate. }
  destruct (Z.leb_spec (WhatsAppHandler.maxSessions env) (Z.of_nat (pred (size cl))));
    [lia|reflexivity].
Qed.

Lemma restartSession_registered_witness :
  let cl : WhatsAppHandler.Clients :=
    <[lit "s1" := WhatsAppHandler.mkClient (lit "s1")]> ∅ in
  cl !! lit "s1" = Some (WhatsAppHandler.mkClient (lit "s1")) /\
  Z.of_nat (size cl) <= WhatsAppHandler.maxSessions None /\
  WhatsAppHandler.restartSession None false true true (lit "s1") cl =
    (WhatsAppHandler.Ok (WhatsAppHandler.mkClient (lit "s1")),
     <[lit "s1" := WhatsAppHandler.mkClient (lit "s1")]> (delete (lit "s1") cl)).
Proof.
  cbv zeta. split; [vm_compute; reflexivity|]. split; [vm_compute; discriminate|].
  apply (restartSession_registered None false true true (lit "s1") _
           (WhatsAppHandler.mkClient (lit "s1"))); vm_compute; [reflexivity|discriminate].
Defined.

(** X6: [cleanupAllSessions] empties the registry, whichever of the
    [client.destroy()] calls and file clean-ups fail. *)
Theorem cleanupAllSessions_empties :
  forall (outcome : jsstr -> bool * bool * bool) (clients : WhatsAppHandler.Clients),
    WhatsAppHandler.cleanupAllSessions outcome clients = ∅.
Proof.
  intros outcome cl. unfold WhatsAppHandler.cleanupAllSessions.
  rewrite cleanupAll_deletes. apply map_eq. intros i.
  rewrite fold_delete_lookup, lookup_empty.
  destruct (decide (i ∈ map fst (map_to_list cl))) as [Hi|Hi]; [reflexivity|].
  destruct (cl !! i) as [x|] eqn:E; [|reflexivity].
  exfalso. apply Hi. apply list_elem_of_In, in_map_iff. exists (i, x). split; [reflexivity|].
  by apply list_elem_of_In, elem_of_map_to_list.
Qed.

(* ------------------------------------------------------------------ *)
(** ** SessionManager: custom messages, stats, QR retries *)

(** X7: [sendMessage(to, message)] makes at most one adapter call, only
    on a ready session, and resolves to success only if it made it; the
    call carries [message] to a chat id containing [@c.us], which is [to]
    itself when [to] already contains [@c.us]. *)
Theorem sm_sendMessage_chatId :
  forall (send_ok : bool) (to message : jsstr) (s : SessionManager.SM),
    let r := SessionManager.sendMessage send_ok to message s in
    (length r.2 <= 1)%nat /\
    (r.1 = true -> r.2 <> []) /\
    (r.2 <> [] -> SessionManager.isReady s = true) /\
    Forall (fun c => includes c.1 (lit "@c.us") = true /\ c.2 = message /\
                     (includes to (lit "@c.us") = true -> c.1 = to)) r.2.
Proof.
  intros send_ok to message s r. subst r. unfold SessionManager.sendMessage.
  destruct (SessionManager.isReady s) eqn:Hr; cbn [negb fst snd length];
    [|split; [lia|]; split; [intros H; discriminate H|];
      split; [intros H; congruence|constructor]].
  destruct (SessionManager.client s); cbn [fst snd length];
    [|split; [lia|]; split; [intros H; discriminate H|];
      split; [intros H; congruence|constructor]].
  split; [lia|]. split; [discriminate|]. split; [reflexivity|].
  constructor; [|constructor]. cbn [fst snd].
  destruct (includes to (lit "@c.us")) eqn:Hi; (split; [|split; [reflexivity|]]).
  - exact Hi.
  - reflexivity.
  - apply includes_app_self.
  - discriminate.
Qed.

Lemma sm_sendMessage_chatId_witness :
  let r := SessionManager.sendMessage true (lit "919876543210") (lit "hi") ready_session in
  r = (true, [(lit "919876543210@c.us", lit "hi")]) /\
  ((length r.2 <= 1)%nat /\
   (r.1 = true -> r.2 <> []) /\
   (r.2 <> [] -> SessionManager.isReady ready_session = true) /\
   Forall (fun c => includes c.1 (lit "@c.us") = true /\ c.2 = lit "hi" /\
                    (includes (lit "919876543210") (lit "@c.us") = true ->
                     c.1 = lit "919876543210")) r.2).
Proof.
  split; [vm_compute; reflexivity|].
  exact (sm_sendMessage_chatId true (lit "919876543210") (lit "hi") ready_session).
Defined.

(** X8: after a tick of the stats interval, a ready session tracks at
    most 50 active chats; the tick changes nothing else. *)
Theorem statsTick_bounds_activeChats :
  forall s : SessionManager.SM,
    SessionManager.isReady s = true ->
    (size (SessionManager.activeChats (SessionManager.statsTick s)) <= 50)%nat /\
    SessionManager.statsTick s =
      SessionManager.set_activeChats s (SessionManager.activeChats (SessionManager.statsTick s)).
Proof.
  intros s Hr. unfold SessionManager.statsTick. rewrite Hr. cbn [andb].
  destruct (Nat.ltb_spec 50 (size (SessionManager.activeChats s))).
  - split; [|reflexivity].
    change (size (∅ : gset jsstr) <= 50)%nat. rewrite size_empty. lia.
  - split; [lia|]. by destruct s.
Qed.

Lemma statsTick_bounds_activeChats_witness :
  let s := SessionManager.set_activeChats ready_session
             (list_to_set (map (fun n => lit "91" ++ [Z.of_nat n]) (seq 0 51))) in
  SessionManager.isReady s = true /\
  SessionManager.activeChats (SessionManager.statsTick s) = ∅ /\
  ((size (SessionManager.activeChats (SessionManager.statsTick s)) <= 50)%nat /\
   SessionManager.statsTick s =
     SessionManager.set_activeChats s (SessionManager.activeChats (SessionManager.statsTick s))).
Proof.
  cbv zeta. split; [reflexivity|]. split; [vm_compute; reflexivity|].
  apply statsTick_bounds_activeChats. reflexivity.
Defined.

(** X10: from a reset counter, the first three generated QR codes only
    count up to 3 and keep the adapter; the fourth restarts the client,
    which, once [client.destroy()] resolves, has a new adapter, is not
    ready and has its counter back at 0. *)
Theorem fourth_qr_restarts :
  forall (s : SessionManager.SM) (d1 d2 d3 : bool) (h1 h2 h3 h : Z),
    SessionManager.qrRetries s = 0 ->
    let s3 := fold_left SessionManager.auth_step
                [SessionManager.EvQr true d1 h1; SessionManager.EvQr true d2 h2;
                 SessionManager.EvQr true d3 h3] s in
    let s4 := SessionManager.auth_step s3 (SessionManager.EvQr true true h) in
    SessionManager.client s3 = SessionManager.client s /\
    SessionManager.qrRetries s3 = 3 /\
    SessionManager.client s4 = Some h /\
    SessionManager.isReady s4 = false /\
    SessionManager.qrRetries s4 = 0.
Proof.
  intros s d1 d2 d3 h1 h2 h3 h H0 s3 s4. subst s3 s4.
  cbn [fold_left SessionManager.auth_step]. unfold SessionManager.maxQrRetries.
  cbn. rewrite H0. simpl.
  unfold SessionManager.restartClient, SessionManager.set_qrRetries. simpl.
  destruct (SessionManager.client s); repeat split; reflexivity.
Qed.

Lemma fourth_qr_restarts_witness :
  SessionManager.qrRetries ready_session = 0 /\
  SessionManager.client
    (SessionManager.auth_step
       (fold_left SessionManager.auth_step
          [SessionManager.EvQr true true 2; SessionManager.EvQr true true 3;
           SessionManager.EvQr true true 4] ready_session)
       (SessionManager.EvQr true true 5)) = Some 5.
Proof.
  split; [reflexivity|].
  apply (fourth_qr_restarts ready_session true true true 2 3 4 5). reflexivity.
Defined.

(* ------------------------------------------------------------------ *)
(** ** SessionManager: the inbound pipeline *)

Lemma gemini_update_suffix (h : GeminiAI.ChatHistory) (c u b : jsstr) (now : Z) :
  exists pre,
    GeminiAI.getChatHistory (GeminiAI.updateChatHistory h c u b now) c =
    pre ++ [GeminiAI.mkEntry GeminiAI.User u now; GeminiAI.mkEntry GeminiAI.Bot b now].
Proof.
  unfold GeminiAI.updateChatHistory, GeminiAI.getChatHistory at 1.
  rewrite lookup_insert_eq. cbn [default].
  set (old := GeminiAI.getChatHistory h c).
  set (tl := [GeminiAI.mkEntry GeminiAI.User u now; GeminiAI.mkEntry GeminiAI.Bot b now]).
  destruct (Nat.ltb_spec 10 (length (old ++ tl))) as [Hlt|_]; [|eauto].
  unfold GeminiAI.slice_last10. rewrite length_app in *.
  exists (drop (length old + length tl - 10) old).
  apply drop_app_le. cbn in *. lia.
Qed.

(** X11: one inbound message makes the pipeline hand at most two
    messages to [message.reply]; two only when [message.reply(reply)]
    rejects, the second being the apology.  The sent counter never
    decreases and grows by at most one, and only when exactly one reply
    was handed over and delivered. *)
Theorem pipeline_sends_at_most_two :
  forall (w : SessionManager.World) (m : SessionManager.Message) (s : SessionManager.SM),
    let '(s', out) := SessionManager.handleIncomingMessage w m s in
    (length out <= 2)%nat /\
    (length out = 2%nat ->
       SessionManager.w_delivery w = SessionManager.ReplyRejects /\
       last out = Some (SessionManager.SentReply SessionManager.apology)) /\
    SessionManager.messageCount s <= SessionManager.messageCount s' <=
      SessionManager.messageCount s + 1 /\
    (SessionManager.messageCount s' = SessionManager.messageCount s + 1 ->
       SessionManager.w_delivery w = SessionManager.Delivered /\
       exists reply, out = [SessionManager.SentReply reply]).
Proof.
  intros w m s. unfold SessionManager.handleIncomingMessage.
  destruct (negb (SessionManager.isReady s) || SessionManager.fromMe m);
    [cbn; repeat split; lia|].
  destruct (includes (SessionManager.from m) (lit "@g.us")); [cbn; repeat split; lia|].
  destruct (_ <? _); [cbn; repeat split; lia|].
  destruct (SessionManager.w_contact w) as [contact|];
    [|cbn; repeat split; lia].
  destruct (Nat.eqb (length (trim (SessionManager.body m))) 0); [cbn; repeat split; lia|].
  destruct (GeminiAI.generateReply _ _ _ _ _ _ _) as [aiReply g].
  destruct aiReply as [reply|]; [|cbn; repeat split; lia].
  destruct (Nat.eqb (length reply) 0); [cbn; repeat split; lia|].
  destruct (SessionManager.w_delivery w) eqn:Ed; cbn; repeat split; try lia; eauto.
Qed.

(** X12: a message that passes the filters but is rate limited by
    [canReply] gets no reply and leaves the counter and the AI state
    unchanged, yet its sender is still added to the active chats. *)
Theorem rate_limited_sender_still_active :
  forall (w : SessionManager.World) (m : SessionManager.Message) (s : SessionManager.SM)
         (contact : SessionManager.Contact),
    SessionManager.isReady s = true ->
    SessionManager.fromMe m = false ->
    includes (SessionManager.from m) (lit "@g.us") = false ->
    SessionManager.w_now w - 5 * 60 * 1000 <= SessionManager.msg_timestamp m * 1000 ->
    SessionManager.w_contact w = Some contact ->
    trim (SessionManager.body m) <> [] ->
    GeminiAI.canReply (SessionManager.w_env_max w) (SessionManager.w_now w)
      (SessionManager.number contact) (GeminiAI.lastReplyTime (SessionManager.geminiAI s)) = false ->
    SessionManager.handleIncomingMessage w m s =
      (SessionManager.set_activeChats s
         ({[SessionManager.number contact]} ∪ SessionManager.activeChats s), []).
Proof.
  intros w m s contact Hr Hme Hg Ht Hc Hb Hcan.
  unfold SessionManager.handleIncomingMessage.
  rewrite Hr, Hme, Hg, Hc. cbn [negb orb].
  destruct (Z.ltb_spec (SessionManager.msg_timestamp m * 1000)
                       (SessionManager.w_now w - 5 * 60 * 1000)); [lia|].
  destruct (Nat.eqb_spec (length (trim (SessionManager.body m))) 0) as [E|_].
  { apply length_zero_iff_nil in E. contradiction. }
  unfold GeminiAI.generateReply. cbn [SessionManager.geminiAI SessionManager.set_activeChats].
  rewrite Hcan. reflexivity.
Qed.

Lemma rate_limited_sender_still_active_witness :
  let k := lit "919876543210" in
  let s := SessionManager.set_geminiAI ready_session
             (GeminiAI.mkGemini ∅ (<[k := 990000]> ∅)) in
  let m := SessionManager.mkMessage (lit "919876543210@c.us") false 1000 (lit "hello") in
  let w := SessionManager.mkWorld 1000000 (Some (SessionManager.mkContact k (lit "A")))
             None (Some (lit "hi there")) 0 SessionManager.Delivered in
  SessionManager.handleIncomingMessage w m s =
    (SessionManager.set_activeChats s ({[k]} ∪ SessionManager.activeChats s), []).
Proof.
  cbv zeta.
  apply (rate_limited_sender_still_active _ _ _
           (SessionManager.mkContact (lit "919876543210") (lit "A")));
    try (vm_compute; reflexivity); try (vm_compute; discriminate).
Defined.

(** X13: a message that passes the filters, from a contact [canReply]
    allows, with a non-empty model answer that is delivered, is answered
    with the trimmed answer; the counter grows by one, the sender is an
    active chat, its reply time is now, and its history ends with the
    trimmed message and the reply. *)
Theorem pipeline_reply_delivered :
  forall (w : SessionManager.World) (m : SessionManager.Message) (s : SessionManager.SM)
         (contact : SessionManager.Contact) (text : jsstr),
    SessionManager.isReady s = true ->
    SessionManager.fromMe m = false ->
    includes (SessionManager.from m) (lit "@g.us") = false ->
    SessionManager.w_now w - 5 * 60 * 1000 <= SessionManager.msg_timestamp m * 1000 ->
    SessionManager.w_contact w = Some contact ->
    trim (SessionManager.body m) <> [] ->
    GeminiAI.canReply (SessionManager.w_env_max w) (SessionManager.w_now w)
      (SessionManager.number contact) (GeminiAI.lastReplyTime (SessionManager.geminiAI s)) = true ->
    SessionManager.w_api w = Some text ->
    trim text <> [] ->
    SessionManager.w_delivery w = SessionManager.Delivered ->
    let '(s', out) := SessionManager.handleIncomingMessage w m s in
    out = [SessionManager.SentReply (trim text)] /\
    SessionManager.messageCount s' = SessionManager.messageCount s + 1 /\
    SessionManager.number contact ∈ SessionManager.activeChats s' /\
    GeminiAI.lastReplyTime (SessionManager.geminiAI s') !! SessionManager.number contact =
      Some (SessionManager.w_now w) /\
    exists pre,
      GeminiAI.getChatHistory (GeminiAI.chatHistory (SessionManager.geminiAI s'))
        (SessionManager.number contact) =
      pre ++ [GeminiAI.mkEntry GeminiAI.User (trim (SessionManager.body m)) (SessionManager.w_now w);
              GeminiAI.mkEntry GeminiAI.Bot (trim text) (SessionManager.w_now w)].
Proof.
  intros w m s contact text Hr Hme Hg Ht Hc Hb Hcan Hapi Htext Hok.
  unfold SessionManager.handleIncomingMessage.
  rewrite Hr, Hme, Hg, Hc. cbn [negb orb].
  destruct (Z.ltb_spec (SessionManager.msg_timestamp m * 1000)
                       (SessionManager.w_now w - 5 * 60 * 1000)); [lia|].
  destruct (Nat.eqb_spec (length (trim (SessionManager.body m))) 0) as [E|_].
  { apply length_zero_iff_nil in E. contradiction. }
  unfold GeminiAI.generateReply. cbn [SessionManager.geminiAI SessionManager.set_activeChats].
  rewrite Hcan, Hapi. cbn [negb].
  destruct (Nat.eqb_spec (length (trim text)) 0) as [E|_].
  { apply length_zero_iff_nil in E. contradiction. }
  rewrite Hok. cbn.
  split; [reflexivity|]. split; [reflexivity|]. split; [set_solver|].
  split; [apply lookup_insert_eq|].
  apply gemini_update_suffix.
Qed.

Lemma pipeline_reply_delivered_witness :
  let m := SessionManager.mkMessage (lit "919876543210@c.us") false 1000 (lit " hello ") in
  let w := SessionManager.mkWorld 1000000
             (Some (SessionManager.mkContact (lit "919876543210") (lit "A")))
             None (Some (lit "hi there ")) 0 SessionManager.Delivered in
  let '(s', out) := SessionManager.handleIncomingMessage w m ready_session in
  out = [SessionManager.SentReply (trim (lit "hi there "))] /\
  SessionManager.messageCount s' = SessionManager.messageCount ready_session + 1 /\
  lit "919876543210" ∈ SessionManager.activeChats s' /\
  GeminiAI.lastReplyTime (SessionManager.geminiAI s') !! lit "919876543210" = Some 1000000 /\
  exists pre,
    GeminiAI.getChatHistory (GeminiAI.chatHistory (SessionManager.geminiAI s'))
      (lit "919876543210") =
    pre ++ [GeminiAI.mkEntry GeminiAI.User (trim (lit " hello ")) 1000000;
            GeminiAI.mkEntry GeminiAI.Bot (trim (lit "hi there ")) 1000000].
Proof.
  exact (pipeline_reply_delivered
           (SessionManager.mkWorld 1000000
              (Some (SessionManager.mkContact (lit "919876543210") (lit "A")))
              None (Some (lit "hi there ")) 0 SessionManager.Delivered)
           (SessionManager.mkMessage (lit "919876543210@c.us") false 1000 (lit " hello "))
           ready_session (SessionManager.mkContact (lit "919876543210") (lit "A"))
           (lit "hi there ")
           eq_refl eq_refl eq_refl ltac:(vm_compute; discriminate) eq_refl
           ltac:(vm_compute; discriminate) eq_refl eq_refl
           ltac:(vm_compute; discriminate) eq_refl).
Defined.

(* ------------------------------------------------------------------ *)
(** ** GeminiAI: reply spacing, history shape, statistics *)

Lemma canReply_after_reply (now now' : Z) (c : jsstr) (m : gmap jsstr Z) :
  now <> 0 ->
  GeminiAI.canReply None now' c (<[c := now]> m) = negb (Z.leb (now' - now) 30000).
Proof.
  intros Hnz. unfold GeminiAI.canReply, parseInt_or. rewrite lookup_insert_eq.
  assert (Hgen : forall x : Z,
    Qle_bool (inject_Z x) (inject_Z (60 * 1000) / inject_Z 2) = Z.leb x 30000).
  { intros x.
    assert (HY : (inject_Z (60 * 1000) / inject_Z 2 == inject_Z 30000)%Q) by reflexivity.
    destruct (Qle_bool _ _) eqn:E; symmetry.
    - apply Qle_bool_iff in E. rewrite HY in E. apply Z.leb_le. rewrite Zle_Qle. exact E.
    - apply Z.leb_nle. intros Hle. rewrite Zle_Qle in Hle. rewrite <- HY in Hle.
      apply Qle_bool_iff in Hle. congruence. }
  destruct now; [contradiction| |]; cbv beta iota; by rewrite Hgen.
Qed.

(** X14: with [MAX_MESSAGES_PER_MINUTE] unset, once [GeminiAI.generateReply]
    has answered a contact at time [now] (any time but the epoch), every
    further call for that contact up to 30 s later resolves to
    [null] and changes nothing, while from more than 30 s later
    [canReply] allows a reply again. *)
Theorem gemini_reply_spacing :
  forall (now now' : Z) (messageText contactNumber text : jsstr) (pick : nat)
         (st : GeminiAI.GeminiState),
    now <> 0 ->
    GeminiAI.canReply None now contactNumber (GeminiAI.lastReplyTime st) = true ->
    let '(r, st1) := GeminiAI.generateReply None now messageText contactNumber (Some text) pick st in
    r = Some (trim text) /\
    (forall (m' : jsstr) (api' : option jsstr) (pick' : nat),
       now' - now <= 30000 ->
       GeminiAI.generateReply None now' m' contactNumber api' pick' st1 = (None, st1)) /\
    (30000 < now' - now ->
     GeminiAI.canReply None now' contactNumber (GeminiAI.lastReplyTime st1) = true).
Proof.
  intros now now' msg c text pick st Hnz Hcan.
  unfold GeminiAI.generateReply at 1. rewrite Hcan. cbn [negb].
  split; [reflexivity|]. split.
  - intros m' api' pick' Hle. unfold GeminiAI.generateReply. cbn [GeminiAI.lastReplyTime].
    rewrite canReply_after_reply by exact Hnz.
    destruct (Z.leb_spec (now' - now) 30000); [reflexivity|lia].
  - intros Hgt. cbn [GeminiAI.lastReplyTime]. rewrite canReply_after_reply by exact Hnz.
    destruct (Z.leb_spec (now' - now) 30000); [lia|reflexivity].
Qed.

Lemma gemini_reply_spacing_witness :
  (1000 : Z) <> 0 /\
  GeminiAI.canReply None 1000 (lit "9198") (GeminiAI.lastReplyTime GeminiAI.initial) = true /\
  GeminiAI.generateReply None 21000 (lit "again") (lit "9198") (Some (lit "x")) 0
    (snd (GeminiAI.generateReply None 1000 (lit "hi") (lit "9198") (Some (lit " hey ")) 0
            GeminiAI.initial)) =
    (None, snd (GeminiAI.generateReply None 1000 (lit "hi") (lit "9198") (Some (lit " hey ")) 0
                  GeminiAI.initial)).
Proof.
  split; [discriminate|]. split; [vm_compute; reflexivity|].
  pose proof (gemini_reply_spacing 1000 21000 (lit "hi") (lit "9198") (lit " hey ") 0
                GeminiAI.initial ltac:(discriminate) ltac:(vm_compute; reflexivity)) as H.
  destruct (GeminiAI.generateReply None 1000 (lit "hi") (lit "9198") (Some (lit " hey ")) 0
              GeminiAI.initial) as [r st1].
  destruct H as (_ & H & _). cbn [snd]. apply H. lia.
Defined.

Lemma exchanges_app (l1 l2 : list GeminiAI.ChatEntry) :
  GeminiAI.exchanges l1 -> GeminiAI.exchanges l2 -> GeminiAI.exchanges (l1 ++ l2).
Proof.
  revert l1. fix IH 1. intros [|u [|b r]] H1 H2; cbn in H1 |- *; [exact H2|contradiction|].
  destruct H1 as (Hu & Hb & Hr). split; [exact Hu|]. split; [exact Hb|].
  exact (IH r Hr H2).
Qed.

Lemma exchanges_length (l : list GeminiAI.ChatEntry) :
  GeminiAI.exchanges l -> exists j, length l = (2 * j)%nat.
Proof.
  revert l. fix IH 1. intros [|u [|b r]] H; cbn in H |- *; [exists 0%nat; reflexivity|contradiction|].
  destruct H as (_ & _ & Hr). destruct (IH r Hr) as [j Hj]. exists (S j). lia.
Qed.

Lemma exchanges_drop (k : nat) (l : list GeminiAI.ChatEntry) :
  GeminiAI.exchanges l -> GeminiAI.exchanges (drop (2 * k) l).
Proof.
  revert l. induction k as [|k IH]; intros l H; [exact H|].
  replace (2 * S k)%nat with (S (S (2 * k))) by lia.
  destruct l as [|u [|b r]]; cbn in H |- *; [exact I|contradiction|].
  apply IH. apply H.
Qed.

Lemma gemini_update_exchanges (h : GeminiAI.ChatHistory) c u b now :
  map_Forall (fun _ l => GeminiAI.exchanges l) h ->
  map_Forall (fun _ l => GeminiAI.exchanges l) (GeminiAI.updateChatHistory h c u b now).
Proof.
  intros Hh. unfold GeminiAI.updateChatHistory.
  apply map_Forall_insert_2; [|exact Hh].
  assert (Hold : GeminiAI.exchanges (GeminiAI.getChatHistory h c)).
  { unfold GeminiAI.getChatHistory. destruct (h !! c) eqn:E; cbn; [exact (Hh c l E)|exact I]. }
  set (old := GeminiAI.getChatHistory h c) in *.
  assert (Hnew : GeminiAI.exchanges
                   (old ++ [GeminiAI.mkEntry GeminiAI.User u now; GeminiAI.mkEntry GeminiAI.Bot b now])).
  { apply exchanges_app; [exact Hold|]. cbn. auto. }
  destruct (Nat.ltb 10 _); [|exact Hnew].
  unfold GeminiAI.slice_last10.
  destruct (exchanges_length _ Hnew) as [j Hj]. rewrite Hj.
  replace (2 * j - 10)%nat with (2 * (j - 5))%nat by lia.
  apply exchanges_drop, Hnew.
Qed.

Lemma gemini_reachable (gops : list GeminiAI.HistoryOp) :
  map_Forall (fun _ l => (length l <= 10)%nat /\ GeminiAI.exchanges l)
    (GeminiAI.chatHistory (fold_left GeminiAI.apply_op gops GeminiAI.initial)).
Proof.
  assert (Hgen : forall st,
    GeminiAI.history_bounded (GeminiAI.chatHistory st) ->
    map_Forall (fun _ l => GeminiAI.exchanges l) (GeminiAI.chatHistory st) ->
    GeminiAI.history_bounded (GeminiAI.chatHistory (fold_left GeminiAI.apply_op gops st)) /\
    map_Forall (fun _ l => GeminiAI.exchanges l)
      (GeminiAI.chatHistory (fold_left GeminiAI.apply_op gops st))).
  { induction gops as [|op gops IH]; intros st Hb He; cbn [fold_left]; [split; assumption|].
    apply IH; [by apply gemini_step_bounded|].
    destruct op as [env now m c api pick|c|now]; cbn.
    - unfold GeminiAI.generateReply.
      destruct (negb (GeminiAI.canReply env now c (GeminiAI.lastReplyTime st))); [exact He|].
      destruct api; cbn; [apply gemini_update_exchanges, He|exact He].
    - apply map_Forall_delete, He.
    - intros k l Hl. apply map_lookup_filter_Some in Hl as [Hl _]. exact (He k l Hl). }
  destruct (Hgen GeminiAI.initial) as [Hb He]; [apply map_Forall_empty..|].
  intros k l Hl. split; [exact (Hb k l Hl)|exact (He k l Hl)].
Qed.

(** X15: every chat history a [GeminiAI] instance reaches from a fresh
    one (through [generateReply], [clearChatHistory] and [cleanup]) is a
    sequence of whole exchanges, a [User] entry followed by a [Bot] entry:
    trimming to the last 10 entries never splits a pair. *)
Theorem gemini_histories_are_exchanges :
  forall gops : list GeminiAI.HistoryOp,
    map_Forall (fun _ l => GeminiAI.exchanges l)
      (GeminiAI.chatHistory (fold_left GeminiAI.apply_op gops GeminiAI.initial)).
Proof.
  intros gops k l Hl. exact (proj2 (gemini_reachable gops k l Hl)).
Qed.

Lemma sum_lengths_bound (vs : list (list GeminiAI.ChatEntry)) (a : nat) :
  Forall (fun l => (length l <= 10)%nat /\ GeminiAI.exchanges l) vs ->
  exists j, fold_left (fun total history => total + length history)%nat vs a = (a + 2 * j)%nat /\
            (2 * j <= 10 * length vs)%nat.
Proof.
  revert a. induction vs as [|l vs IH]; intros a H; cbn [fold_left length].
  - exists 0%nat. lia.
  - inversion H as [|l' vs' [Hl Hx] Hvs]; subst.
    destruct (exchanges_length l Hx) as [i Hi].
    destruct (IH (a + length l)%nat Hvs) as [j [Hj Hle]].
    exists (i + j)%nat. lia.
Qed.

Lemma length_filter_le {A} (f : A -> bool) (l : list A) :
  (length (List.filter f l) <= length l)%nat.
Proof. induction l as [|x l IH]; cbn; [lia|]. destruct (f x); cbn; lia. Qed.

(** X16: in every state a [GeminiAI] instance reaches from a fresh one,
    [getStats()] reports at most [totalChats] active chats, and an even
    [totalMessages] of at most 10 per chat. *)
Theorem gemini_stats_reachable :
  forall (gops : list GeminiAI.HistoryOp) (now : Z),
    let stats := GeminiAI.getStats now
                   (GeminiAI.chatHistory (fold_left GeminiAI.apply_op gops GeminiAI.initial)) in
    (GeminiAI.activeChats stats <= GeminiAI.totalChats stats)%nat /\
    (GeminiAI.totalMessages stats <= 10 * GeminiAI.totalChats stats)%nat /\
    Nat.Even (GeminiAI.totalMessages stats).
Proof.
  intros gops now stats. subst stats.
  pose proof (gemini_reachable gops) as Hr.
  set (h := GeminiAI.chatHistory (fold_left GeminiAI.apply_op gops GeminiAI.initial)) in *.
  unfold GeminiAI.getStats. cbn [GeminiAI.activeChats GeminiAI.totalChats GeminiAI.totalMessages].
  assert (Hlen : length (map snd (map_to_list h)) = size h)
    by (rewrite length_map; apply length_map_to_list).
  assert (Hall : Forall (fun l => (length l <= 10)%nat /\ GeminiAI.exchanges l)
                   (map snd (map_to_list h))).
  { apply Forall_forall. intros l Hin. apply list_elem_of_In, in_map_iff in Hin as [[k l'] [Heq Hin]].
    cbn in Heq. subst l'. apply list_elem_of_In, elem_of_map_to_list in Hin.
    exact (Hr k l Hin). }
  destruct (sum_lengths_bound _ 0%nat Hall) as [j [Hj Hle]].
  rewrite Hj. split; [|split].
  - rewrite <- Hlen. apply length_filter_le.
  - lia.
  - exists j. lia.
Qed.

(* ------------------------------------------------------------------ *)
(** ** AIReply: sweep, response cleaning, commands, statistics *)

(** X17: the hourly sweep keeps exactly the conversations whose last turn
    is at most 24 h old, unchanged (empty histories are dropped), and
    exactly the rate-limit entries whose reset time is at most 5 minutes
    past. *)
Theorem cleanupOldConversations_keeps_recent :
  forall (now : Z) (h : AIReply.History) (rl : gmap jsstr AIReply.RateEntry),
    let '(h', rl') := AIReply.cleanupOldConversations now h rl in
    (forall k l, h' !! k = Some l <->
       h !! k = Some l /\
       exists t, last l = Some t /\ now - AIReply.timestamp t <= AIReply.maxAge) /\
    (forall k e, rl' !! k = Some e <->
       rl !! k = Some e /\ now <= AIReply.resetTime e + 300000).
Proof.
  intros now h rl. cbn. split.
  - intros k l. rewrite map_lookup_filter_Some. cbn.
    unfold AIReply.keep_conversation.
    destruct (last l) as [t|]; cbn.
    + destruct (Z.ltb_spec AIReply.maxAge (now - AIReply.timestamp t)); cbn.
      * split; [intros [_ H']; discriminate H'|]. intros [_ (t' & Ht' & Hle)].
        injection Ht' as <-. lia.
      * split; [intros [Hl _]; split; [exact Hl|eauto]|intros [Hl _]; split; [exact Hl|reflexivity]].
    + split; [intros [_ H']; discriminate H'|]. intros [_ (t' & Ht' & _)]. discriminate Ht'.
  - intros k e. rewrite map_lookup_filter_Some. cbn.
    unfold AIReply.keep_rate_limit.
    destruct (Z.ltb_spec (AIReply.resetTime e + 300000) now); cbn.
    + split; [intros [_ H']; discriminate H'|]. intros [_ Hle]. lia.
    + split; intros [Hl _]; split; [exact Hl|lia|exact Hl|reflexivity].
Qed.

(** X18: [cleanAIResponse] never returns more than 500 code units. *)
Theorem cleanAIResponse_at_most_500 :
  forall response : jsstr, (length (AIReply.cleanAIResponse response) <= 500)%nat.
Proof.
  intros response. unfold AIReply.cleanAIResponse.
  set (c := trim _).
  destruct (Nat.ltb_spec 500 (length c)) as [Hlt|Hge]; [|exact Hge].
  rewrite length_app, length_take. change (length (lit "...")) with 3%nat. lia.
Qed.

Lemma replace_lazy_fuel_id (d0 : Z) (d : jsstr) (fuel : nat) (s : jsstr) :
  Forall (fun c => c <> d0) s -> AIReply.replace_lazy_fuel (d0 :: d) fuel s = s.
Proof.
  revert s. induction fuel as [|f IH]; intros s Hs; [reflexivity|].
  cbn [AIReply.replace_lazy_fuel].
  assert (Hst : startsWith s (d0 :: d) = false).
  { destruct s as [|c r]; [reflexivity|]. cbn.
    inversion Hs; subst. destruct (Z.eqb_spec d0 c); [congruence|reflexivity]. }
  rewrite Hst. destruct s as [|c r]; [reflexivity|].
  inversion Hs; subst. f_equal. by apply IH.
Qed.

Lemma collapse_blank_lines_fuel_id (fuel : nat) (s : jsstr) :
  Forall (fun c => c <> 10) s -> AIReply.collapse_blank_lines_fuel fuel s = s.
Proof.
  revert s. induction fuel as [|f IH]; intros s Hs; [reflexivity|].
  cbn [AIReply.collapse_blank_lines_fuel].
  destruct s as [|c r]; [reflexivity|].
  inversion Hs; subst. cbn [AIReply.blank_lines_at].
  destruct (Z.eqb_spec c 10); [congruence|]. f_equal. by apply IH.
Qed.

(** X19: a response without [*], backquote or line feed comes out of
    [cleanAIResponse] only trimmed and, beyond 500 code units, cut to its
    first 497 followed by [...]. *)
Theorem cleanAIResponse_plain_text :
  forall response : jsstr,
    Forall (fun c => c <> 42 /\ c <> 96 /\ c <> 10) response ->
    AIReply.cleanAIResponse response =
      (let t := trim response in
       if Nat.ltb 500 (length t) then take 497 t ++ lit "..." else t).
Proof.
  intros response H.
  assert (H42 : Forall (fun c => c <> 42) response)
    by (eapply Forall_impl; [exact H|]; intros c [? _]; assumption).
  assert (H96 : Forall (fun c => c <> 96) response)
    by (eapply Forall_impl; [exact H|]; intros c (_ & ? & _); assumption).
  assert (H10 : Forall (fun c => c <> 10) response)
    by (eapply Forall_impl; [exact H|]; intros c (_ & _ & ?); assumption).
  unfold AIReply.cleanAIResponse, AIReply.replace_lazy, AIReply.collapse_blank_lines.
  change (lit "**") with [42; 42]. change (lit "*") with [42]. change (lit "`") with [96].
  rewrite (replace_lazy_fuel_id 42 [42]) by exact H42.
  rewrite (replace_lazy_fuel_id 42 []) by exact H42.
  rewrite (replace_lazy_fuel_id 96 []) by exact H96.
  rewrite collapse_blank_lines_fuel_id by exact H10.
  reflexivity.
Qed.

Lemma cleanAIResponse_plain_text_witness :
  Forall (fun c => c <> 42 /\ c <> 96 /\ c <> 10) (lit "  Hello there!  ") /\
  AIReply.cleanAIResponse (lit "  Hello there!  ") = lit "Hello there!".
Proof.
  assert (H : Forall (fun c => c <> 42 /\ c <> 96 /\ c <> 10) (lit "  Hello there!  ")).
  { repeat constructor; discriminate. }
  split; [exact H|].
  rewrite (cleanAIResponse_plain_text _ H). vm_compute. reflexivity.
Defined.

(** X20: a message that reads [/clear] or [clear history] once lower-cased
    and trimmed is answered by the clear confirmation, without going
    through [generateReply]: the sender's conversation history is
    deleted, every other history and all rate limits are left as they
    were. *)
Theorem clear_command_forgets_contact :
  forall (toLowerCase : jsstr -> jsstr) (env_limit : option Z) (now : Z)
         (message fromNumber : jsstr) (api : option jsstr) (st : AIReply.AIState),
    trim (toLowerCase message) = lit "/clear" \/
    trim (toLowerCase message) = lit "clear history" ->
    AIReply.generateContextAwareReply toLowerCase env_limit now message fromNumber api st =
    (AIReply.SpecialReply AIReply.CmdCleared,
     AIReply.mkAI (delete fromNumber (AIReply.conversationHistory st)) (AIReply.rateLimits st)).
Proof.
  intros toLowerCase env now message k api st H.
  unfold AIReply.generateContextAwareReply, AIReply.handleSpecialCommands.
  destruct H as [H|H]; rewrite H; reflexivity.
Qed.

Lemma clear_command_forgets_contact_witness :
  let st := AIReply.mkAI
              (<[lit "9198" := [AIReply.mkTurn (lit "hi") (lit "hey") AIReply.english 0]]>
                 (<[lit "9199" := []]> ∅)) ∅ in
  AIReply.generateContextAwareReply (map AIReply.ascii_lower) None 5 (lit " /Clear ")
    (lit "9198") None st =
  (AIReply.SpecialReply AIReply.CmdCleared, AIReply.mkAI (<[lit "9199" := []]> ∅) ∅).
Proof.
  cbv zeta.
  rewrite (clear_command_forgets_contact (map AIReply.ascii_lower) None 5 (lit " /Clear ")
             (lit "9198") None _ (or_introl eq_refl)).
  vm_compute. reflexivity.
Defined.

Section Sums.

Context {A : Type}.

Lemma fold_sum_lengths (vs : list (list A)) (a : nat) :
  fold_left (fun sum history => sum + length history)%nat vs a = (a + length (concat vs))%nat.
Proof.
  revert a. induction vs as [|l vs IH]; intros a; cbn; [lia|].
  rewrite IH, length_app. lia.
Qed.

Lemma values_bounded (h : gmap jsstr (list A)) :
  map_Forall (fun _ l => (length l <= 10)%nat) h ->
  (length (concat (map snd (map_to_list h))) <= 10 * size h)%nat.
Proof.
  intros Hh. rewrite <- length_map_to_list.
  apply map_Forall_to_list in Hh.
  induction Hh as [|[k l] kvs Hl _ IH]; cbn in *; [lia|].
  rewrite length_app. lia.
Qed.

End Sums.

(** X21: the [/status] command leaves the state unchanged and reports
    the number of conversations and the total number of turns of
    [getStats()]; when every history holds at most 10 turns (which every
    reachable state satisfies), the total is at most 10 per
    conversation. *)
Theorem status_command_reports_stats :
  forall (toLowerCase : jsstr -> jsstr) (message fromNumber : jsstr) (st : AIReply.AIState),
    trim (toLowerCase message) = lit "/status" ->
    AIReply.history_bounded (AIReply.conversationHistory st) ->
    exists a t,
      AIReply.handleSpecialCommands toLowerCase message fromNumber st =
        (Some (AIReply.CmdStatus a t), st) /\
      a = AIReply.activeConversations (AIReply.getStats st) /\
      t = AIReply.totalMessages (AIReply.getStats st) /\
      a = size (AIReply.conversationHistory st) /\
      (t <= 10 * a)%nat.
Proof.
  intros toLowerCase message k st H Hb.
  unfold AIReply.handleSpecialCommands. rewrite H. cbn -[AIReply.getStats].
  eexists _, _. split; [reflexivity|]. split; [reflexivity|]. split; [reflexivity|].
  cbn. split; [reflexivity|].
  unfold AIReply.histories. rewrite fold_sum_lengths. cbn.
  by apply values_bounded.
Qed.

Lemma status_command_reports_stats_witness :
  let st := AIReply.mkAI
              (<[lit "9198" := [AIReply.mkTurn (lit "hi") (lit "hey") AIReply.english 0]]> ∅) ∅ in
  trim (map AIReply.ascii_lower (lit "/STATUS")) = lit "/status" /\
  AIReply.history_bounded (AIReply.conversationHistory st) /\
  AIReply.handleSpecialCommands (map AIReply.ascii_lower) (lit "/STATUS") (lit "9198") st =
    (Some (AIReply.CmdStatus 1 1), st).
Proof.
  cbv zeta.
  assert (Hb : AIReply.history_bounded
                 (<[lit "9198" := [AIReply.mkTurn (lit "hi") (lit "hey") AIReply.english 0]]> ∅)).
  { apply map_Forall_insert_2; [cbn; lia|apply map_Forall_empty]. }
  split; [vm_compute; reflexivity|]. split; [exact Hb|].
  destruct (status_command_reports_stats (map AIReply.ascii_lower) (lit "/STATUS") (lit "9198")
              (AIReply.mkAI (<[lit "9198" := [AIReply.mkTurn (lit "hi") (lit "hey")
                                               AIReply.english 0]]> ∅) ∅)
              eq_refl Hb) as (a & t & E & _).
  rewrite E. vm_compute in E. injection E as Ea Et. rewrite <- Ea, <- Et. reflexivity.
Defined.

Lemma sum_langs_update (f : AIReply.Lang -> nat) (e : AIReply.ConversationTurn) :
  fold_right (fun l acc => (fun l => if decide (l = AIReply.language e) then f l + 1
                                     else f l)%nat l + acc)%nat 0%nat AIReply.all_langs =
  (fold_right (fun l acc => f l + acc)%nat 0%nat AIReply.all_langs + 1)%nat.
Proof. destruct (AIReply.language e); cbn; repeat case_decide; first [congruence | lia]. Qed.

(** X22: the per-category counts of [getLanguageStats()] add up to the
    [totalMessages] of [getStats()]: every recorded turn is counted under
    exactly one category. *)
Theorem language_stats_sum_total :
  forall st : AIReply.AIState,
    fold_right (fun l acc => AIReply.getLanguageStats (AIReply.conversationHistory st) l + acc)%nat
      0%nat AIReply.all_langs =
    AIReply.totalMessages (AIReply.getStats st).
Proof.
  intros st. cbn [AIReply.getStats AIReply.totalMessages].
  rewrite fold_sum_lengths. unfold AIReply.getLanguageStats.
  generalize (concat (AIReply.histories (AIReply.conversationHistory st))) as es.
  intros es.
  assert (Hgen : forall f,
    fold_right (fun l acc =>
      fold_left (fun languageCounts entry =>
                   fun l => if decide (l = AIReply.language entry) then languageCounts l + 1
                            else languageCounts l)%nat es f l + acc)%nat 0%nat AIReply.all_langs =
    (fold_right (fun l acc => f l + acc)%nat 0%nat AIReply.all_langs + length es)%nat).
  { induction es as [|e es IH]; intros f; cbn [fold_left length]; [lia|].
    rewrite IH. rewrite sum_langs_update. lia. }
  rewrite Hgen. cbn. lia.
Qed.

(** X23: for a message classified [hinglish], [processAdvancedLanguage]
    reports mixed content; when [hindiRatio] is [NaN] the message has no
    Devanagari and no ASCII-letter word and the dominant language is
    [english]; otherwise the ratio lies in [0, 1] and the
    dominant language is [hindi] exactly when the ratio exceeds 1/2. *)
Theorem hinglish_analysis_consistent :
  forall message : jsstr,
    let a := AIReply.processAdvancedLanguage message AIReply.hinglish in
    AIReply.mixedContent a = true /\
    match AIReply.hindiRatio a with
    | None =>
        AIReply.dominantLanguage a = AIReply.english /\
        AIReply.count_runs AIReply.is_devanagari false message = 0%nat /\
        AIReply.count_runs AIReply.is_latin false message = 0%nat
    | Some r =>
        (0 <= r <= 1)%Q /\ (AIReply.dominantLanguage a = AIReply.hindi <-> (1 # 2 < r)%Q)
    end.
Proof.
  intros message a. subst a. unfold AIReply.processAdvancedLanguage.
  destruct (decide (AIReply.hinglish = AIReply.hinglish)) as [_|n]; [|contradiction].
  cbn [AIReply.mixedContent AIReply.hindiRatio AIReply.dominantLanguage].
  split; [reflexivity|].
  set (hw := AIReply.count_runs AIReply.is_devanagari false message).
  set (ew := AIReply.count_runs AIReply.is_latin false message).
  destruct (Nat.eqb_spec (hw + ew) 0) as [E|E].
  - split; [|lia]. destruct (Nat.ltb_spec ew hw); [lia|reflexivity].
  - assert (Hpos : (0 < inject_Z (Z.of_nat (hw + ew)))%Q).
    { change (inject_Z 0 < inject_Z (Z.of_nat (hw + ew)))%Q. rewrite <- Zlt_Qlt. lia. }
    assert (Hsum : inject_Z (Z.of_nat (hw + ew)) =
                   (inject_Z (Z.of_nat hw) + inject_Z (Z.of_nat ew))%Q).
    { rewrite Nat2Z.inj_add. apply inject_Z_plus. }
    assert (Hh0 : (0 <= inject_Z (Z.of_nat hw))%Q)
      by (change (inject_Z 0 <= inject_Z (Z.of_nat hw))%Q; rewrite <- Zle_Qle; lia).
    assert (He0 : (0 <= inject_Z (Z.of_nat ew))%Q)
      by (change (inject_Z 0 <= inject_Z (Z.of_nat ew))%Q; rewrite <- Zle_Qle; lia).
    split; [split|].
    + apply Qle_shift_div_l; [exact Hpos|]. lra.
    + apply Qle_shift_div_r; [exact Hpos|]. rewrite Hsum. lra.
    + destruct (Nat.ltb_spec ew hw) as [Hlt|Hge]; split; intros Hd; try reflexivity.
      * apply Qlt_shift_div_l; [exact Hpos|]. rewrite Hsum.
        assert (Hq : (inject_Z (Z.of_nat ew) < inject_Z (Z.of_nat hw))%Q)
          by (rewrite <- Zlt_Qlt; lia).
        lra.
      * discriminate Hd.
      * exfalso.
        assert (Hq : (inject_Z (Z.of_nat hw) <= inject_Z (Z.of_nat ew))%Q)
          by (rewrite <- Zle_Qle; lia).
        assert (Hle : (inject_Z (Z.of_nat hw) / inject_Z (Z.of_nat (hw + ew)) <= 1 # 2)%Q).
        { apply Qle_shift_div_r; [exact Hpos|]. rewrite Hsum. lra. }
        lra.
Qed.
